(** * OITVOIP MCP server: the tool dispatcher and the NetSapiens gateway

    A shallow embedding of [src/index.ts] (the tool catalogue, the
    [CallTool] dispatcher and its 23 handlers) and of
    [src/netsapiens-client.ts] (the [NetSapiensClient] gateway), followed by
    the properties the specification states about them.

    Conventions of the embedding.
    - JavaScript values are the inductive [JsVal]; a missing property reads
      as [JUndefined], as in the language.  A number is held by the text
      Number::toString gives it ([20], [1.5], [1e+21]): the program never
      computes with a number, it tests one for truth and prints it, and both
      are functions of that text.  [JNum n] is the number whose text is the
      decimal of the integer [n], as the literals of the source and the
      lengths the program takes are.  A string is the UTF-8 encoding of its
      text.  Objects are association lists in property order, the order
      [JSON.stringify] emits; a lookup takes the first binding.
    - A value reaches the program by [JSON.parse]: no property of it is a
      function.  Converting an object to a string therefore throws a
      TypeError when the object has a [toString] property of its own, and
      gives [[object Object]] when it has none.
    - The asynchronous methods are computations of the monad [Http]: they
      read a [Transport] (what the remote platform answers to each request)
      and thread a [World] (the requests issued so far and the diagnostics
      written by the response interceptor); they return a value or throw.
    - Endpoints are relative to the client's [baseURL]
      ([apiUrl ++ "/ns-api/v2"]); headers and the timeout are configuration
      of the transport and do not appear in a request.  A request is the
      method, the endpoint and the [params] object as the gateway hands
      them to axios.
    - An [McpError] is held by the code and the text the program hands to
      its constructor; the prefix the SDK puts before that text in the
      [message] of the error is not part of it.
    - Process start-up takes no part in a tool call; [getConfig], the
      constructor of the client and [run] are embedded in [Config], the
      connection of the transport and the SIGINT handler are not. *)

From Stdlib Require Import List String Ascii ZArith Bool Lia.
From Stdlib Require Import Numbers.DecimalString.
Import ListNotations.

Local Open Scope list_scope.
Local Open Scope string_scope.

#[local] Set Warnings "-register-all".

(** ** JavaScript values *)

Inductive JsVal : Type :=
| JUndefined
| JNull
| JBool (b : bool)
| JNumber (text : string)
| JStr (s : string)
| JArr (elements : list JsVal)
| JObj (fields : list (string * JsVal)).

Definition JsObject := list (string * JsVal).

(** Number::toString on an integer below 2^53 in absolute value, which a
    double holds exactly and prints in decimal: the literals of the
    source, the lengths of arrays and strings, the status codes. *)
Definition numberToString (n : Z) : string :=
  NilZero.string_of_int (Z.to_int n).

(** The number that is such an integer. *)
Definition JNum (n : Z) : JsVal := JNumber (numberToString n).

(** [o.key]: the value of an own property, [undefined] when there is none. *)
Fixpoint getProp (key : string) (o : JsObject) : JsVal :=
  match o with
  | [] => JUndefined
  | (k, v) :: rest => if String.eqb k key then v else getProp key rest
  end.

Definition keys (o : JsObject) : list string := map fst o.

Definition hasOwnProperty (key : string) (o : JsObject) : bool :=
  existsb (String.eqb key) (keys o).

Definition isUndefined (v : JsVal) : bool :=
  match v with JUndefined => true | _ => false end.

(** ToBoolean; both zeros print as [0]. *)
Definition truthy (v : JsVal) : bool :=
  match v with
  | JUndefined | JNull => false
  | JBool b => b
  | JNumber text => negb (String.eqb text "0" || String.eqb text "NaN")
  | JStr s => negb (String.eqb s EmptyString)
  | JArr _ | JObj _ => true
  end.

(** [a || b]. *)
Definition orElse (a b : JsVal) : JsVal := if truthy a then a else b.

(** A destructuring default, [{ x = d }]: it applies to [undefined] only. *)
Definition withDefault (v d : JsVal) : JsVal :=
  match v with JUndefined => d | _ => v end.

Definition isArray (v : JsVal) : bool :=
  match v with JArr _ => true | _ => false end.

Definition ofOption (o : option string) : JsVal :=
  match o with Some s => JStr s | None => JUndefined end.

Fixpoint join (sep : string) (parts : list string) : string :=
  match parts with
  | [] => EmptyString
  | [p] => p
  | p :: rest => p ++ sep ++ join sep rest
  end.

Fixpoint sequence {A} (l : list (option A)) : option (list A) :=
  match l with
  | [] => Some []
  | Some a :: rest => option_map (cons a) (sequence rest)
  | None :: _ => None
  end.

(** ToString, as a template literal applies it to an interpolated value;
    [None] when the conversion throws a TypeError.  An object is converted
    by its [toString] method (the inherited one prints [[object Object]]),
    then by [valueOf]; an own [toString] hides the inherited method and is
    not callable, and [valueOf], inherited or not, gives no primitive.  An
    array is joined with commas, [null] and [undefined] printing empty. *)
Fixpoint ToString (v : JsVal) : option string :=
  match v with
  | JUndefined => Some "undefined"
  | JNull => Some "null"
  | JBool true => Some "true"
  | JBool false => Some "false"
  | JNumber text => Some text
  | JStr s => Some s
  | JArr l =>
      option_map (join ",")
        (sequence
           (map (fun x => match x with
                          | JUndefined | JNull => Some EmptyString
                          | _ => ToString x
                          end) l))
  | JObj o =>
      if hasOwnProperty "toString" o then None else Some "[object Object]"
  end.

(** The length of a string in UTF-16 code units, from its UTF-8 bytes: a
    continuation byte counts for nothing, the lead byte of a four-byte
    sequence for a surrogate pair. *)
Fixpoint utf16Length (s : string) : nat :=
  match s with
  | EmptyString => 0
  | String c rest =>
      let n := nat_of_ascii c in
      (if Nat.ltb n 128 then 1
       else if Nat.ltb n 192 then 0
       else if Nat.ltb n 240 then 1
       else 2) + utf16Length rest
  end.

(** [v?.length] *)
Definition lengthOf (v : JsVal) : JsVal :=
  match v with
  | JArr l => JNum (Z.of_nat (List.length l))
  | JStr s => JNum (Z.of_nat (utf16Length s))
  | JObj o => getProp "length" o
  | _ => JUndefined
  end.

(** ** JSON.stringify(value, null, 2) *)

Definition dquote : string := String "034"%char EmptyString.
Definition newline : string := String "010"%char EmptyString.
Definition gap : string := "  ".

Definition hexDigit (n : nat) : ascii :=
  match n with
  | 0 => "0" | 1 => "1" | 2 => "2" | 3 => "3" | 4 => "4" | 5 => "5"
  | 6 => "6" | 7 => "7" | 8 => "8" | 9 => "9" | 10 => "a" | 11 => "b"
  | 12 => "c" | 13 => "d" | 14 => "e" | _ => "f"
  end%char.

(** One character of QuoteJSONString. *)
Definition quoteChar (c : ascii) : string :=
  let n := nat_of_ascii c in
  if Nat.eqb n 8 then "\b"
  else if Nat.eqb n 9 then "\t"
  else if Nat.eqb n 10 then "\n"
  else if Nat.eqb n 12 then "\f"
  else if Nat.eqb n 13 then "\r"
  else if Nat.eqb n 34 then String "\"%char dquote
  else if Nat.eqb n 92 then "\\"
  else if Nat.ltb n 32 then
    "\u00" ++ String (hexDigit (n / 16)) (String (hexDigit (n mod 16)) EmptyString)
  else String c EmptyString.

Fixpoint quoteBody (s : string) : string :=
  match s with
  | EmptyString => EmptyString
  | String c rest => quoteChar c ++ quoteBody rest
  end.

Definition QuoteJSONString (s : string) : string :=
  dquote ++ quoteBody s ++ dquote.

(** A number that is not finite is serialized as [null]. *)
Definition isFinite (text : string) : bool :=
  negb (String.eqb text "NaN" || String.eqb text "Infinity"
        || String.eqb text "-Infinity").

(** SerializeJSONProperty with a gap of two spaces; [None] is [undefined]:
    such a property is left out of an object and printed [null] in an
    array. *)
Fixpoint SerializeJSONProperty (indent : string) (v : JsVal) : option string :=
  match v with
  | JUndefined => None
  | JNull => Some "null"
  | JBool true => Some "true"
  | JBool false => Some "false"
  | JNumber text => Some (if isFinite text then text else "null")
  | JStr s => Some (QuoteJSONString s)
  | JArr l =>
      let stepback := indent in
      let indent := indent ++ gap in
      let partial :=
        map (fun x => match SerializeJSONProperty indent x with
                      | Some s => s
                      | None => "null"
                      end) l in
      match partial with
      | [] => Some "[]"
      | _ =>
          Some ("[" ++ newline ++ indent
                ++ join ("," ++ newline ++ indent) partial
                ++ newline ++ stepback ++ "]")
      end
  | JObj o =>
      let stepback := indent in
      let indent := indent ++ gap in
      let partial :=
        flat_map (fun kv => match SerializeJSONProperty indent (snd kv) with
                            | Some s => [QuoteJSONString (fst kv) ++ ": " ++ s]
                            | None => []
                            end) o in
      match partial with
      | [] => Some "{}"
      | _ =>
          Some ("{" ++ newline ++ indent
                ++ join ("," ++ newline ++ indent) partial
                ++ newline ++ stepback ++ "}")
      end
  end.

(** [JSON.stringify(value, null, 2)]: a string, or [undefined]. *)
Definition JSON_stringify (value : JsVal) : JsVal :=
  ofOption (SerializeJSONProperty EmptyString value).

(** ** The transport and the effects of a request *)

Inductive HttpMethod := GET | POST.

(** A request as the gateway hands it to axios: the method, the endpoint
    and the [params] object (empty when no request config is passed). *)
Record Request := mkRequest {
  method : HttpMethod;
  url : string;
  params : JsObject
}.

(** The response of a rejected request: its status code (a three-digit
    integer), its status text and its parsed body. *)
Record ErrorResponse := mkErrorResponse {
  status : Z;
  statusText : string;
  body : JsVal
}.

(** What axios rejects with: an error whose [message] may be missing and
    which carries the response when the platform answered at all. *)
Record AxiosError := mkAxiosError {
  axios_message : option string;
  response : option ErrorResponse
}.

(** A 2xx answer resolves with its parsed body, anything else (a non-2xx
    status, a timeout, a DNS or connection failure) rejects. *)
Inductive HttpOutcome :=
| Resolved (responseData : JsVal)
| Rejected (e : AxiosError).

Definition Transport := Request -> HttpOutcome.

Record World := mkWorld {
  issued : list Request;
  console : list (string * JsVal)
}.

Inductive ErrorCode := MethodNotFound | InvalidParams | InternalError.

(** [new McpError(code, text)]. *)
Inductive McpError := mkMcpError (code : ErrorCode) (text : string).

Inductive Thrown :=
| ThrowAxios (e : AxiosError)
| ThrowMcp (e : McpError)
| ThrowTypeError (description : string).

Inductive Outcome (A : Type) :=
| Returned (a : A)
| Threw (e : Thrown).
Arguments Returned {A} a.
Arguments Threw {A} e.

Definition Http (A : Type) : Type := Transport -> World -> Outcome A * World.

Definition ret {A} (a : A) : Http A := fun _ w => (Returned a, w).

Definition throw {A} (e : Thrown) : Http A := fun _ w => (Threw e, w).

Definition bind {A B} (c : Http A) (k : A -> Http B) : Http B :=
  fun t w =>
    match c t w with
    | (Returned a, w') => k a t w'
    | (Threw e, w') => (Threw e, w')
    end.

Definition tryCatch {A} (c : Http A) (handler : Thrown -> Http A) : Http A :=
  fun t w =>
    match c t w with
    | (Returned a, w') => (Returned a, w')
    | (Threw e, w') => handler e t w'
    end.

Notation "x <- c ;; k" := (bind c (fun x => k))
  (at level 61, c at next level, right associativity).
Notation "'try' c 'catch' h" := (tryCatch c h) (at level 62, c at level 61).

(** The TypeError of a conversion to a string that fails (the text is
    V8's). *)
Definition cannotConvert : Thrown :=
  ThrowTypeError "Cannot convert object to primitive value".

(** One substitution of a template literal, [${v}]. *)
Definition toStr (v : JsVal) : Http string :=
  match ToString v with
  | Some s => ret s
  | None => throw cannotConvert
  end.

Definition lit (s : string) : Http string := ret s.

(** A template literal: its pieces are evaluated from left to right and
    concatenated. *)
Fixpoint template (pieces : list (Http string)) : Http string :=
  match pieces with
  | [] => ret EmptyString
  | piece :: rest =>
      match rest with
      | [] => piece
      | _ => s <- piece ;; r <- template rest ;; ret (s ++ r)
      end
  end.

(** The number of an error code, and the [message] the SDK's constructor
    gives an [McpError]. *)
Definition errorCodeNumber (code : ErrorCode) : Z :=
  match code with
  | MethodNotFound => -32601
  | InvalidParams => -32602
  | InternalError => -32603
  end.

Definition McpError_message (e : McpError) : string :=
  match e with
  | mkMcpError code text =>
      "MCP error " ++ numberToString (errorCodeNumber code) ++ ": " ++ text
  end.

(** [error.message] of a caught value. *)
Definition messageOf (e : Thrown) : JsVal :=
  match e with
  | ThrowAxios a => ofOption (axios_message a)
  | ThrowMcp e => JStr (McpError_message e)
  | ThrowTypeError d => JStr d
  end.

(** The response interceptor of the constructor: a rejection is logged to
    [console.error] with its status, status text, body and url, and
    rejected again. *)
Definition interceptor (r : Request) (e : AxiosError) (w : World) : World :=
  let response_status :=
    match response e with Some r => JNum (status r) | None => JUndefined end in
  let response_statusText :=
    match response e with Some r => JStr (statusText r) | None => JUndefined end in
  let response_data :=
    match response e with Some r => body r | None => JUndefined end in
  mkWorld (issued w)
    (console w ++
       [("NetSapiens API Error:",
         JObj [("status", response_status);
               ("statusText", response_statusText);
               ("data", response_data);
               ("url", JStr (url r))])]%list).

Definition client_request (r : Request) : Http JsVal :=
  fun t w =>
    let w := mkWorld (issued w ++ [r])%list (console w) in
    match t r with
    | Resolved d => (Returned d, w)
    | Rejected e => (Threw (ThrowAxios e), interceptor r e w)
    end.

(** [this.client.get(url, { params })] and [this.client.post(url)]; the
    value bound is [response.data]. *)
Definition client_get (url : string) (params : JsObject) : Http JsVal :=
  client_request (mkRequest GET url params).

Definition client_post (url : string) : Http JsVal :=
  client_request (mkRequest POST url []).

(** ** NetSapiensClient: the gateway

    The endpoint is built inside the [try] of each method, so a TypeError
    of a substitution is caught like a rejection of the request. *)

Record NetSapiensApiResponse := mkApiResponse {
  success : bool;
  data : JsVal;
  error : JsVal;
  message : JsVal
}.

Definition searchUsers (query domain limit : JsVal) : Http NetSapiensApiResponse :=
  let limit := withDefault limit (JNum 20) in
  try
    (let endpoint := lit "/domains/~/users/~" in
     endpoint <-
       (if truthy domain then template [lit "/domains/"; toStr domain; lit "/users"]
        else endpoint) ;;
     responseData <- client_get endpoint [("user", query); ("limit", limit)] ;;
     ret {| success := true;
            data := if isArray responseData then responseData else JArr [responseData];
            error := JUndefined;
            message := JUndefined |})
  catch (fun err =>
     ret {| success := false;
            error := orElse (messageOf err) (JStr "Failed to search users");
            data := JArr [];
            message := JUndefined |}).

Definition getUser (userId domain : JsVal) : Http NetSapiensApiResponse :=
  try
    (endpoint <- template [lit "/domains/"; toStr domain; lit "/users/"; toStr userId] ;;
     responseData <- client_get endpoint [] ;;
     ret {| success := true;
            data := responseData;
            error := JUndefined;
            message := JUndefined |})
  catch (fun err =>
     ret {| success := false;
            error := orElse (messageOf err) (JStr "Failed to get user");
            data := JUndefined;
            message := JUndefined |}).

Definition getCDRRecords (params : JsObject) : Http NetSapiensApiResponse :=
  try
    (let endpoint := lit "/cdrs" in
     endpoint <-
       (if truthy (getProp "user" params) && truthy (getProp "domain" params) then
          template [lit "/domains/"; toStr (getProp "domain" params);
                    lit "/users/"; toStr (getProp "user" params); lit "/cdrs"]
        else if truthy (getProp "domain" params) then
          template [lit "/domains/"; toStr (getProp "domain" params); lit "/cdrs"]
        else endpoint) ;;
     responseData <-
       client_get endpoint
         [("start_time", getProp "startDate" params);
          ("end_time", getProp "endDate" params);
          ("limit", orElse (getProp "limit" params) (JNum 100))] ;;
     ret {| success := true;
            data := if isArray responseData then responseData else JArr [responseData];
            error := JUndefined;
            message := JUndefined |})
  catch (fun err =>
     ret {| success := false;
            error := orElse (messageOf err) (JStr "Failed to get CDR records");
            data := JArr [];
            message := JUndefined |}).

Definition getDomains : Http NetSapiensApiResponse :=
  try
    (responseData <- client_get "/domains" [] ;;
     ret {| success := true;
            data := if isArray responseData then responseData else JArr [responseData];
            error := JUndefined;
            message := JUndefined |})
  catch (fun err =>
     ret {| success := false;
            error := orElse (messageOf err) (JStr "Failed to get domains");
            data := JArr [];
            message := JUndefined |}).

Definition getDomain (domain : JsVal) : Http NetSapiensApiResponse :=
  try
    (endpoint <- template [lit "/domains/"; toStr domain] ;;
     responseData <- client_get endpoint [] ;;
     ret {| success := true;
            data := responseData;
            error := JUndefined;
            message := JUndefined |})
  catch (fun err =>
     ret {| success := false;
            error := orElse (messageOf err) (JStr "Failed to get domain");
            data := JUndefined;
            message := JUndefined |}).

Definition getUserDevices (userId domain : JsVal) : Http NetSapiensApiResponse :=
  try
    (endpoint <- template [lit "/domains/"; toStr domain; lit "/users/";
                         toStr userId; lit "/devices"] ;;
     responseData <- client_get endpoint [] ;;
     ret {| success := true;
            data := if isArray responseData then responseData else JArr [responseData];
            error := JUndefined;
            message := JUndefined |})
  catch (fun err =>
     ret {| success := false;
            error := orElse (messageOf err) (JStr "Failed to get user devices");
            data := JArr [];
            message := JUndefined |}).

(** Phone numbers. *)

Definition getPhoneNumbers (domain limit : JsVal) : Http NetSapiensApiResponse :=
  try
    (endpoint <- template [lit "/domains/"; toStr domain; lit "/phonenumbers"] ;;
     responseData <- client_get endpoint [("limit", limit)] ;;
     ret {| success := true;
            data := if isArray responseData then responseData else JArr [responseData];
            error := JUndefined;
            message := JUndefined |})
  catch (fun err =>
     ret {| success := false;
            error := orElse (messageOf err) (JStr "Failed to get phone numbers");
            data := JArr [];
            message := JUndefined |}).

Definition getPhoneNumber (domain phoneNumber : JsVal) : Http NetSapiensApiResponse :=
  try
    (endpoint <- template [lit "/domains/"; toStr domain; lit "/phonenumbers/";
                         toStr phoneNumber] ;;
     responseData <- client_get endpoint [] ;;
     ret {| success := true;
            data := responseData;
            error := JUndefined;
            message := JUndefined |})
  catch (fun err =>
     ret {| success := false;
            error := orElse (messageOf err) (JStr "Failed to get phone number");
            data := JUndefined;
            message := JUndefined |}).

(** Call queues. *)

Definition getCallQueues (domain : JsVal) : Http NetSapiensApiResponse :=
  try
    (endpoint <- template [lit "/domains/"; toStr domain; lit "/callqueues"] ;;
     responseData <- client_get endpoint [] ;;
     ret {| success := true;
            data := if isArray responseData then responseData else JArr [responseData];
            error := JUndefined;
            message := JUndefined |})
  catch (fun err =>
     ret {| success := false;
            error := orElse (messageOf err) (JStr "Failed to get call queues");
            data := JArr [];
            message := JUndefined |}).

Definition getCallQueue (domain queueId : JsVal) : Http NetSapiensApiResponse :=
  try
    (endpoint <- template [lit "/domains/"; toStr domain; lit "/callqueues/"; toStr queueId] ;;
     responseData <- client_get endpoint [] ;;
     ret {| success := true;
            data := responseData;
            error := JUndefined;
            message := JUndefined |})
  catch (fun err =>
     ret {| success := false;
            error := orElse (messageOf err) (JStr "Failed to get call queue");
            data := JUndefined;
            message := JUndefined |}).

Definition getCallQueueAgents (domain queueId : JsVal) : Http NetSapiensApiResponse :=
  try
    (endpoint <- template [lit "/domains/"; toStr domain; lit "/callqueues/";
                         toStr queueId; lit "/agents"] ;;
     responseData <- client_get endpoint [] ;;
     ret {| success := true;
            data := if isArray responseData then responseData else JArr [responseData];
            error := JUndefined;
            message := JUndefined |})
  catch (fun err =>
     ret {| success := false;
            error := orElse (messageOf err) (JStr "Failed to get call queue agents");
            data := JArr [];
            message := JUndefined |}).

(** Agents. *)

Definition getAgents (domain : JsVal) : Http NetSapiensApiResponse :=
  try
    (endpoint <- template [lit "/domains/"; toStr domain; lit "/agents"] ;;
     responseData <- client_get endpoint [] ;;
     ret {| success := true;
            data := if isArray responseData then responseData else JArr [responseData];
            error := JUndefined;
            message := JUndefined |})
  catch (fun err =>
     ret {| success := false;
            error := orElse (messageOf err) (JStr "Failed to get agents");
            data := JArr [];
            message := JUndefined |}).

Definition loginAgent (domain queueId agentId : JsVal) : Http NetSapiensApiResponse :=
  try
    (endpoint <- template [lit "/domains/"; toStr domain; lit "/callqueues/";
                         toStr queueId; lit "/agents/"; toStr agentId; lit "/login"] ;;
     responseData <- client_post endpoint ;;
     ret {| success := true;
            data := responseData;
            error := JUndefined;
            message := JStr "Agent logged in successfully" |})
  catch (fun err =>
     ret {| success := false;
            error := orElse (messageOf err) (JStr "Failed to login agent");
            data := JUndefined;
            message := JUndefined |}).

Definition logoutAgent (domain queueId agentId : JsVal) : Http NetSapiensApiResponse :=
  try
    (endpoint <- template [lit "/domains/"; toStr domain; lit "/callqueues/";
                         toStr queueId; lit "/agents/"; toStr agentId; lit "/logout"] ;;
     responseData <- client_post endpoint ;;
     ret {| success := true;
            data := responseData;
            error := JUndefined;
            message := JStr "Agent logged out successfully" |})
  catch (fun err =>
     ret {| success := false;
            error := orElse (messageOf err) (JStr "Failed to logout agent");
            data := JUndefined;
            message := JUndefined |}).

(** Auto attendants. *)

Definition getAutoAttendants (domain : JsVal) : Http NetSapiensApiResponse :=
  try
    (endpoint <- template [lit "/domains/"; toStr domain; lit "/autoattendants"] ;;
     responseData <- client_get endpoint [] ;;
     ret {| success := true;
            data := if isArray responseData then responseData else JArr [responseData];
            error := JUndefined;
            message := JUndefined |})
  catch (fun err =>
     ret {| success := false;
            error := orElse (messageOf err) (JStr "Failed to get auto attendants");
            data := JArr [];
            message := JUndefined |}).

(** Answer rules. *)

Definition getUserAnswerRules (userId domain : JsVal) : Http NetSapiensApiResponse :=
  try
    (endpoint <- template [lit "/domains/"; toStr domain; lit "/users/";
                         toStr userId; lit "/answerrules"] ;;
     responseData <- client_get endpoint [] ;;
     ret {| success := true;
            data := if isArray responseData then responseData else JArr [responseData];
            error := JUndefined;
            message := JUndefined |})
  catch (fun err =>
     ret {| success := false;
            error := orElse (messageOf err) (JStr "Failed to get answer rules");
            data := JArr [];
            message := JUndefined |}).

Definition getUserAnswerRule (userId domain timeframe : JsVal) : Http NetSapiensApiResponse :=
  try
    (endpoint <- template [lit "/domains/"; toStr domain; lit "/users/";
                         toStr userId; lit "/answerrules/"; toStr timeframe] ;;
     responseData <- client_get endpoint [] ;;
     ret {| success := true;
            data := responseData;
            error := JUndefined;
            message := JUndefined |})
  catch (fun err =>
     ret {| success := false;
            error := orElse (messageOf err) (JStr "Failed to get answer rule");
            data := JUndefined;
            message := JUndefined |}).

(** Greetings and voicemail. *)

Definition getUserGreetings (userId domain : JsVal) : Http NetSapiensApiResponse :=
  try
    (endpoint <- template [lit "/domains/"; toStr domain; lit "/users/";
                         toStr userId; lit "/greetings"] ;;
     responseData <- client_get endpoint [] ;;
     ret {| success := true;
            data := if isArray responseData then responseData else JArr [responseData];
            error := JUndefined;
            message := JUndefined |})
  catch (fun err =>
     ret {| success := false;
            error := orElse (messageOf err) (JStr "Failed to get user greetings");
            data := JArr [];
            message := JUndefined |}).

Definition getUserVoicemails (userId domain : JsVal) : Http NetSapiensApiResponse :=
  try
    (endpoint <- template [lit "/domains/"; toStr domain; lit "/users/";
                         toStr userId; lit "/voicemail"] ;;
     responseData <- client_get endpoint [] ;;
     ret {| success := true;
            data := if isArray responseData then responseData else JArr [responseData];
            error := JUndefined;
            message := JUndefined |})
  catch (fun err =>
     ret {| success := false;
            error := orElse (messageOf err) (JStr "Failed to get user voicemails");
            data := JArr [];
            message := JUndefined |}).

(** Music on hold. *)

Definition getMusicOnHold (domain : JsVal) : Http NetSapiensApiResponse :=
  try
    (endpoint <- template [lit "/domains/"; toStr domain; lit "/moh"] ;;
     responseData <- client_get endpoint [] ;;
     ret {| success := true;
            data := if isArray responseData then responseData else JArr [responseData];
            error := JUndefined;
            message := JUndefined |})
  catch (fun err =>
     ret {| success := false;
            error := orElse (messageOf err) (JStr "Failed to get music on hold");
            data := JArr [];
            message := JUndefined |}).

(** Billing. *)

Definition getBilling (domain : JsVal) : Http NetSapiensApiResponse :=
  try
    (endpoint <- template [lit "/domains/"; toStr domain; lit "/billing"] ;;
     responseData <- client_get endpoint [] ;;
     ret {| success := true;
            data := responseData;
            error := JUndefined;
            message := JUndefined |})
  catch (fun err =>
     ret {| success := false;
            error := orElse (messageOf err) (JStr "Failed to get billing information");
            data := JUndefined;
            message := JUndefined |}).

(** Statistics. *)

Definition getAgentStatistics (domain agentId : JsVal) : Http NetSapiensApiResponse :=
  try
    (endpoint <-
       (if truthy agentId then
          template [lit "/domains/"; toStr domain; lit "/statistics/agent/"; toStr agentId]
        else template [lit "/domains/"; toStr domain; lit "/statistics/agent"]) ;;
     responseData <- client_get endpoint [] ;;
     ret {| success := true;
            data := responseData;
            error := JUndefined;
            message := JUndefined |})
  catch (fun err =>
     ret {| success := false;
            error := orElse (messageOf err) (JStr "Failed to get agent statistics");
            data := JUndefined;
            message := JUndefined |}).

(** The connectivity probe; the body of the answer is not looked at. *)
Definition testConnection : Http NetSapiensApiResponse :=
  try
    (responseData <- client_get "/domains" [("limit", JNum 1)] ;;
     ret {| success := true;
            data := JBool true;
            error := JUndefined;
            message := JStr "Connection successful" |})
  catch (fun err =>
     ret {| success := false;
            error := orElse (messageOf err) (JStr "Connection failed");
            data := JBool false;
            message := JUndefined |}).

(** ** The dispatcher: tool handlers

    Every handler returns the object
    [{ content: [{ type: 'text', text: JSON.stringify({...}, null, 2) }] }].
    The message of the envelope is a template literal evaluated outside any
    [try]: a TypeError of one of its substitutions leaves the handler. *)

(** [const { first, ... } = args]: destructuring [undefined] throws a
    TypeError (the text is V8's; nothing below depends on it). *)
Definition destructure (args : option JsObject) (first : string) : Http JsObject :=
  match args with
  | Some o => ret o
  | None =>
      throw (ThrowTypeError
               ("Cannot destructure property '" ++ first
                ++ "' of 'args' as it is undefined."))
  end.

Definition handleSearchUsers (args : option JsObject) : Http JsVal :=
  args <- destructure args "query" ;;
  let query := getProp "query" args in
  let domain := getProp "domain" args in
  let limit := withDefault (getProp "limit" args) (JNum 20) in
  if negb (truthy query) then
    throw (ThrowMcp (mkMcpError InvalidParams "Query parameter is required"))
  else
  result <- searchUsers query domain limit ;;
  message <-
    (if success result then
       template [lit "Found "; toStr (orElse (lengthOf (data result)) (JNum 0));
                 lit " users matching "; lit dquote; toStr query; lit dquote;
                 (if truthy domain then template [lit " in domain "; toStr domain]
                  else lit EmptyString)]
     else template [lit "Search failed: "; toStr (error result)]) ;;
  ret (JObj
    [("content",
      JArr [JObj [("type", JStr "text");
                  ("text",
                   JSON_stringify
                     (JObj [("success", JBool (success result));
                            ("message", JStr message);
                            ("data", data result);
                            ("error", error result)]))]])]).

Definition handleGetUser (args : option JsObject) : Http JsVal :=
  args <- destructure args "userId" ;;
  let userId := getProp "userId" args in
  let domain := getProp "domain" args in
  if negb (truthy userId) || negb (truthy domain) then
    throw (ThrowMcp (mkMcpError InvalidParams "userId and domain parameters are required"))
  else
  result <- getUser userId domain ;;
  message <-
    (if success result then
       template [lit "Retrieved user details for "; toStr userId]
     else template [lit "Failed to get user: "; toStr (error result)]) ;;
  ret (JObj
    [("content",
      JArr [JObj [("type", JStr "text");
                  ("text",
                   JSON_stringify
                     (JObj [("success", JBool (success result));
                            ("message", JStr message);
                            ("data", data result);
                            ("error", error result)]))]])]).

Definition handleGetCDRRecords (args : option JsObject) : Http JsVal :=
  args <- destructure args "startDate" ;;
  let startDate := getProp "startDate" args in
  let endDate := getProp "endDate" args in
  let user := getProp "user" args in
  let domain := getProp "domain" args in
  let limit := withDefault (getProp "limit" args) (JNum 100) in
  result <- getCDRRecords
              [("startDate", startDate);
               ("endDate", endDate);
               ("user", user);
               ("domain", domain);
               ("limit", limit)] ;;
  message <-
    (if success result then
       template [lit "Retrieved "; toStr (orElse (lengthOf (data result)) (JNum 0));
                 lit " CDR records"]
     else template [lit "Failed to get CDR records: "; toStr (error result)]) ;;
  ret (JObj
    [("content",
      JArr [JObj [("type", JStr "text");
                  ("text",
                   JSON_stringify
                     (JObj [("success", JBool (success result));
                            ("message", JStr message);
                            ("data", data result);
                            ("error", error result)]))]])]).

Definition handleGetDomains (args : option JsObject) : Http JsVal :=
  result <- getDomains ;;
  message <-
    (if success result then
       template [lit "Retrieved "; toStr (orElse (lengthOf (data result)) (JNum 0));
                 lit " domains"]
     else template [lit "Failed to get domains: "; toStr (error result)]) ;;
  ret (JObj
    [("content",
      JArr [JObj [("type", JStr "text");
                  ("text",
                   JSON_stringify
                     (JObj [("success", JBool (success result));
                            ("message", JStr message);
                            ("data", data result);
                            ("error", error result)]))]])]).

Definition handleGetDomain (args : option JsObject) : Http JsVal :=
  args <- destructure args "domain" ;;
  let domain := getProp "domain" args in
  if negb (truthy domain) then
    throw (ThrowMcp (mkMcpError InvalidParams "domain parameter is required"))
  else
  result <- getDomain domain ;;
  message <-
    (if success result then
       template [lit "Retrieved domain information for "; toStr domain]
     else template [lit "Failed to get domain: "; toStr (error result)]) ;;
  ret (JObj
    [("content",
      JArr [JObj [("type", JStr "text");
                  ("text",
                   JSON_stringify
                     (JObj [("success", JBool (success result));
                            ("message", JStr message);
                            ("data", data result);
                            ("error", error result)]))]])]).

Definition handleGetUserDevices (args : option JsObject) : Http JsVal :=
  args <- destructure args "userId" ;;
  let userId := getProp "userId" args in
  let domain := getProp "domain" args in
  if negb (truthy userId) || negb (truthy domain) then
    throw (ThrowMcp (mkMcpError InvalidParams "userId and domain parameters are required"))
  else
  result <- getUserDevices userId domain ;;
  message <-
    (if success result then
       template [lit "Retrieved "; toStr (orElse (lengthOf (data result)) (JNum 0));
                 lit " devices for user "; toStr userId; lit "@"; toStr domain]
     else template [lit "Failed to get user devices: "; toStr (error result)]) ;;
  ret (JObj
    [("content",
      JArr [JObj [("type", JStr "text");
                  ("text",
                   JSON_stringify
                     (JObj [("success", JBool (success result));
                            ("message", JStr message);
                            ("data", data result);
                            ("error", error result)]))]])]).

Definition handleGetPhoneNumbers (args : option JsObject) : Http JsVal :=
  args <- destructure args "domain" ;;
  let domain := getProp "domain" args in
  let limit := getProp "limit" args in
  if negb (truthy domain) then
    throw (ThrowMcp (mkMcpError InvalidParams "domain parameter is required"))
  else
  result <- getPhoneNumbers domain limit ;;
  message <-
    (if success result then
       template [lit "Retrieved "; toStr (orElse (lengthOf (data result)) (JNum 0));
                 lit " phone numbers for domain "; toStr domain]
     else template [lit "Failed to get phone numbers: "; toStr (error result)]) ;;
  ret (JObj
    [("content",
      JArr [JObj [("type", JStr "text");
                  ("text",
                   JSON_stringify
                     (JObj [("success", JBool (success result));
                            ("message", JStr message);
                            ("data", data result);
                            ("error", error result)]))]])]).

Definition handleGetPhoneNumber (args : option JsObject) : Http JsVal :=
  args <- destructure args "domain" ;;
  let domain := getProp "domain" args in
  let phoneNumber := getProp "phoneNumber" args in
  if negb (truthy domain) || negb (truthy phoneNumber) then
    throw (ThrowMcp (mkMcpError InvalidParams "domain and phoneNumber parameters are required"))
  else
  result <- getPhoneNumber domain phoneNumber ;;
  message <-
    (if success result then
       template [lit "Retrieved phone number details for "; toStr phoneNumber]
     else template [lit "Failed to get phone number: "; toStr (error result)]) ;;
  ret (JObj
    [("content",
      JArr [JObj [("type", JStr "text");
                  ("text",
                   JSON_stringify
                     (JObj [("success", JBool (success result));
                            ("message", JStr message);
                            ("data", data result);
                            ("error", error result)]))]])]).

Definition handleGetCallQueues (args : option JsObject) : Http JsVal :=
  args <- destructure args "domain" ;;
  let domain := getProp "domain" args in
  if negb (truthy domain) then
    throw (ThrowMcp (mkMcpError InvalidParams "domain parameter is required"))
  else
  result <- getCallQueues domain ;;
  message <-
    (if success result then
       template [lit "Retrieved "; toStr (orElse (lengthOf (data result)) (JNum 0));
                 lit " call queues for domain "; toStr domain]
     else template [lit "Failed to get call queues: "; toStr (error result)]) ;;
  ret (JObj
    [("content",
      JArr [JObj [("type", JStr "text");
                  ("text",
                   JSON_stringify
                     (JObj [("success", JBool (success result));
                            ("message", JStr message);
                            ("data", data result);
                            ("error", error result)]))]])]).

Definition handleGetCallQueue (args : option JsObject) : Http JsVal :=
  args <- destructure args "domain" ;;
  let domain := getProp "domain" args in
  let queueId := getProp "queueId" args in
  if negb (truthy domain) || negb (truthy queueId) then
    throw (ThrowMcp (mkMcpError InvalidParams "domain and queueId parameters are required"))
  else
  result <- getCallQueue domain queueId ;;
  message <-
    (if success result then
       template [lit "Retrieved call queue details for "; toStr queueId]
     else template [lit "Failed to get call queue: "; toStr (error result)]) ;;
  ret (JObj
    [("content",
      JArr [JObj [("type", JStr "text");
                  ("text",
                   JSON_stringify
                     (JObj [("success", JBool (success result));
                            ("message", JStr message);
                            ("data", data result);
                            ("error", error result)]))]])]).

Definition handleGetCallQueueAgents (args : option JsObject) : Http JsVal :=
  args <- destructure args "domain" ;;
  let domain := getProp "domain" args in
  let queueId := getProp "queueId" args in
  if negb (truthy domain) || negb (truthy queueId) then
    throw (ThrowMcp (mkMcpError InvalidParams "domain and queueId parameters are required"))
  else
  result <- getCallQueueAgents domain queueId ;;
  message <-
    (if success result then
       template [lit "Retrieved "; toStr (orElse (lengthOf (data result)) (JNum 0));
                 lit " agents for call queue "; toStr queueId]
     else template [lit "Failed to get call queue agents: "; toStr (error result)]) ;;
  ret (JObj
    [("content",
      JArr [JObj [("type", JStr "text");
                  ("text",
                   JSON_stringify
                     (JObj [("success", JBool (success result));
                            ("message", JStr message);
                            ("data", data result);
                            ("error", error result)]))]])]).

Definition handleGetAgents (args : option JsObject) : Http JsVal :=
  args <- destructure args "domain" ;;
  let domain := getProp "domain" args in
  if negb (truthy domain) then
    throw (ThrowMcp (mkMcpError InvalidParams "domain parameter is required"))
  else
  result <- getAgents domain ;;
  message <-
    (if success result then
       template [lit "Retrieved "; toStr (orElse (lengthOf (data result)) (JNum 0));
                 lit " agents for domain "; toStr domain]
     else template [lit "Failed to get agents: "; toStr (error result)]) ;;
  ret (JObj
    [("content",
      JArr [JObj [("type", JStr "text");
                  ("text",
                   JSON_stringify
                     (JObj [("success", JBool (success result));
                            ("message", JStr message);
                            ("data", data result);
                            ("error", error result)]))]])]).

Definition handleLoginAgent (args : option JsObject) : Http JsVal :=
  args <- destructure args "domain" ;;
  let domain := getProp "domain" args in
  let queueId := getProp "queueId" args in
  let agentId := getProp "agentId" args in
  if negb (truthy domain) || negb (truthy queueId) || negb (truthy agentId) then
    throw (ThrowMcp (mkMcpError InvalidParams
                       "domain, queueId, and agentId parameters are required"))
  else
  result <- loginAgent domain queueId agentId ;;
  ret (JObj
    [("content",
      JArr [JObj [("type", JStr "text");
                  ("text",
                   JSON_stringify
                     (JObj [("success", JBool (success result));
                            ("message",
                             orElse (message result)
                               (JStr (if success result
                                      then "Agent logged in successfully"
                                      else "Failed to login agent")));
                            ("data", data result);
                            ("error", error result)]))]])]).

Definition handleLogoutAgent (args : option JsObject) : Http JsVal :=
  args <- destructure args "domain" ;;
  let domain := getProp "domain" args in
  let queueId := getProp "queueId" args in
  let agentId := getProp "agentId" args in
  if negb (truthy domain) || negb (truthy queueId) || negb (truthy agentId) then
    throw (ThrowMcp (mkMcpError InvalidParams
                       "domain, queueId, and agentId parameters are required"))
  else
  result <- logoutAgent domain queueId agentId ;;
  ret (JObj
    [("content",
      JArr [JObj [("type", JStr "text");
                  ("text",
                   JSON_stringify
                     (JObj [("success", JBool (success result));
                            ("message",
                             orElse (message result)
                               (JStr (if success result
                                      then "Agent logged out successfully"
                                      else "Failed to logout agent")));
                            ("data", data result);
                            ("error", error result)]))]])]).

Definition handleGetAutoAttendants (args : option JsObject) : Http JsVal :=
  args <- destructure args "domain" ;;
  let domain := getProp "domain" args in
  if negb (truthy domain) then
    throw (ThrowMcp (mkMcpError InvalidParams "domain parameter is required"))
  else
  result <- getAutoAttendants domain ;;
  message <-
    (if success result then
       template [lit "Retrieved "; toStr (orElse (lengthOf (data result)) (JNum 0));
                 lit " auto attendants for domain "; toStr domain]
     else template [lit "Failed to get auto attendants: "; toStr (error result)]) ;;
  ret (JObj
    [("content",
      JArr [JObj [("type", JStr "text");
                  ("text",
                   JSON_stringify
                     (JObj [("success", JBool (success result));
                            ("message", JStr message);
                            ("data", data result);
                            ("error", error result)]))]])]).

Definition handleGetUserAnswerRules (args : option JsObject) : Http JsVal :=
  args <- destructure args "userId" ;;
  let userId := getProp "userId" args in
  let domain := getProp "domain" args in
  if negb (truthy userId) || negb (truthy domain) then
    throw (ThrowMcp (mkMcpError InvalidParams "userId and domain parameters are required"))
  else
  result <- getUserAnswerRules userId domain ;;
  message <-
    (if success result then
       template [lit "Retrieved "; toStr (orElse (lengthOf (data result)) (JNum 0));
                 lit " answer rules for user "; toStr userId; lit "@"; toStr domain]
     else template [lit "Failed to get answer rules: "; toStr (error result)]) ;;
  ret (JObj
    [("content",
      JArr [JObj [("type", JStr "text");
                  ("text",
                   JSON_stringify
                     (JObj [("success", JBool (success result));
                            ("message", JStr message);
                            ("data", data result);
                            ("error", error result)]))]])]).

Definition handleGetUserAnswerRule (args : option JsObject) : Http JsVal :=
  args <- destructure args "userId" ;;
  let userId := getProp "userId" args in
  let domain := getProp "domain" args in
  let timeframe := getProp "timeframe" args in
  if negb (truthy userId) || negb (truthy domain) || negb (truthy timeframe) then
    throw (ThrowMcp (mkMcpError InvalidParams "userId, domain, and timeframe parameters are required"))
  else
  result <- getUserAnswerRule userId domain timeframe ;;
  message <-
    (if success result then
       template [lit "Retrieved answer rule for "; toStr userId; lit "@"; toStr domain;
                 lit " timeframe "; toStr timeframe]
     else template [lit "Failed to get answer rule: "; toStr (error result)]) ;;
  ret (JObj
    [("content",
      JArr [JObj [("type", JStr "text");
                  ("text",
                   JSON_stringify
                     (JObj [("success", JBool (success result));
                            ("message", JStr message);
                            ("data", data result);
                            ("error", error result)]))]])]).

Definition handleGetUserGreetings (args : option JsObject) : Http JsVal :=
  args <- destructure args "userId" ;;
  let userId := getProp "userId" args in
  let domain := getProp "domain" args in
  if negb (truthy userId) || negb (truthy domain) then
    throw (ThrowMcp (mkMcpError InvalidParams "userId and domain parameters are required"))
  else
  result <- getUserGreetings userId domain ;;
  message <-
    (if success result then
       template [lit "Retrieved "; toStr (orElse (lengthOf (data result)) (JNum 0));
                 lit " greetings for user "; toStr userId; lit "@"; toStr domain]
     else template [lit "Failed to get user greetings: "; toStr (error result)]) ;;
  ret (JObj
    [("content",
      JArr [JObj [("type", JStr "text");
                  ("text",
                   JSON_stringify
                     (JObj [("success", JBool (success result));
                            ("message", JStr message);
                            ("data", data result);
                            ("error", error result)]))]])]).

Definition handleGetUserVoicemails (args : option JsObject) : Http JsVal :=
  args <- destructure args "userId" ;;
  let userId := getProp "userId" args in
  let domain := getProp "domain" args in
  if negb (truthy userId) || negb (truthy domain) then
    throw (ThrowMcp (mkMcpError InvalidParams "userId and domain parameters are required"))
  else
  result <- getUserVoicemails userId domain ;;
  message <-
    (if success result then
       template [lit "Retrieved "; toStr (orElse (lengthOf (data result)) (JNum 0));
                 lit " voicemails for user "; toStr userId; lit "@"; toStr domain]
     else template [lit "Failed to get user voicemails: "; toStr (error result)]) ;;
  ret (JObj
    [("content",
      JArr [JObj [("type", JStr "text");
                  ("text",
                   JSON_stringify
                     (JObj [("success", JBool (success result));
                            ("message", JStr message);
                            ("data", data result);
                            ("error", error result)]))]])]).

Definition handleGetMusicOnHold (args : option JsObject) : Http JsVal :=
  args <- destructure args "domain" ;;
  let domain := getProp "domain" args in
  if negb (truthy domain) then
    throw (ThrowMcp (mkMcpError InvalidParams "domain parameter is required"))
  else
  result <- getMusicOnHold domain ;;
  message <-
    (if success result then
       template [lit "Retrieved "; toStr (orElse (lengthOf (data result)) (JNum 0));
                 lit " music on hold files for domain "; toStr domain]
     else template [lit "Failed to get music on hold: "; toStr (error result)]) ;;
  ret (JObj
    [("content",
      JArr [JObj [("type", JStr "text");
                  ("text",
                   JSON_stringify
                     (JObj [("success", JBool (success result));
                            ("message", JStr message);
                            ("data", data result);
                            ("error", error result)]))]])]).

Definition handleGetBilling (args : option JsObject) : Http JsVal :=
  args <- destructure args "domain" ;;
  let domain := getProp "domain" args in
  if negb (truthy domain) then
    throw (ThrowMcp (mkMcpError InvalidParams "domain parameter is required"))
  else
  result <- getBilling domain ;;
  message <-
    (if success result then
       template [lit "Retrieved billing information for domain "; toStr domain]
     else template [lit "Failed to get billing information: "; toStr (error result)]) ;;
  ret (JObj
    [("content",
      JArr [JObj [("type", JStr "text");
                  ("text",
                   JSON_stringify
                     (JObj [("success", JBool (success result));
                            ("message", JStr message);
                            ("data", data result);
                            ("error", error result)]))]])]).

Definition handleGetAgentStatistics (args : option JsObject) : Http JsVal :=
  args <- destructure args "domain" ;;
  let domain := getProp "domain" args in
  let agentId := getProp "agentId" args in
  if negb (truthy domain) then
    throw (ThrowMcp (mkMcpError InvalidParams "domain parameter is required"))
  else
  result <- getAgentStatistics domain agentId ;;
  message <-
    (if success result then
       template [lit "Retrieved agent statistics for domain "; toStr domain;
                 (if truthy agentId then template [lit " (agent: "; toStr agentId; lit ")"]
                  else lit EmptyString)]
     else template [lit "Failed to get agent statistics: "; toStr (error result)]) ;;
  ret (JObj
    [("content",
      JArr [JObj [("type", JStr "text");
                  ("text",
                   JSON_stringify
                     (JObj [("success", JBool (success result));
                            ("message", JStr message);
                            ("data", data result);
                            ("error", error result)]))]])]).

(** The envelope of [test_connection] has no [data] property. *)
Definition handleTestConnection (args : option JsObject) : Http JsVal :=
  result <- testConnection ;;
  ret (JObj
    [("content",
      JArr [JObj [("type", JStr "text");
                  ("text",
                   JSON_stringify
                     (JObj [("success", JBool (success result));
                            ("message",
                             orElse (message result)
                               (JStr (if success result
                                      then "Connection successful"
                                      else "Connection failed")));
                            ("error", error result)]))]])]).

(** ** The tool catalogue *)

Definition catalog : list JsVal :=
  [ JObj
      [("name", JStr "search_users");
       ("description", JStr "Search for users in the NetSapiens system");
       ("inputSchema", JObj
        [("type", JStr "object");
         ("properties", JObj
          [("query", JObj
            [("type", JStr "string");
             ("description", JStr "Search query (username or partial username)")]);
           ("domain", JObj
            [("type", JStr "string");
             ("description", JStr "Optional specific domain to search in")]);
           ("limit", JObj
            [("type", JStr "number");
             ("description", JStr "Maximum number of results to return (default: 20)");
             ("default", JNum 20)])]);
         ("required", JArr [JStr "query"])])];
    JObj
      [("name", JStr "get_user");
       ("description", JStr "Get detailed information about a specific user");
       ("inputSchema", JObj
        [("type", JStr "object");
         ("properties", JObj
          [("userId", JObj
            [("type", JStr "string");
             ("description", JStr "User ID (username part)")]);
           ("domain", JObj [("type", JStr "string"); ("description", JStr "Domain name")])]);
         ("required", JArr [JStr "userId"; JStr "domain"])])];
    JObj
      [("name", JStr "get_cdr_records");
       ("description", JStr "Retrieve call detail records (CDR)");
       ("inputSchema", JObj
        [("type", JStr "object");
         ("properties", JObj
          [("startDate", JObj
            [("type", JStr "string");
             ("description", JStr "Start date for CDR search (YYYY-MM-DD format)")]);
           ("endDate", JObj
            [("type", JStr "string");
             ("description", JStr "End date for CDR search (YYYY-MM-DD format)")]);
           ("user", JObj
            [("type", JStr "string");
             ("description", JStr "Specific user to get CDR records for")]);
           ("domain", JObj
            [("type", JStr "string");
             ("description", JStr "Domain to search in (required if user is specified)")]);
           ("limit", JObj
            [("type", JStr "number");
             ("description", JStr "Maximum number of records to return (default: 100)");
             ("default", JNum 100)])])])];
    JObj
      [("name", JStr "get_domains");
       ("description", JStr "Get list of domains in the NetSapiens system");
       ("inputSchema", JObj [("type", JStr "object"); ("properties", JObj [])])];
    JObj
      [("name", JStr "get_domain");
       ("description", JStr "Get detailed information about a specific domain");
       ("inputSchema", JObj
        [("type", JStr "object");
         ("properties", JObj
          [("domain", JObj
            [("type", JStr "string");
             ("description", JStr "Domain name to retrieve information for")])]);
         ("required", JArr [JStr "domain"])])];
    JObj
      [("name", JStr "get_user_devices");
       ("description", JStr "Get devices assigned to a specific user");
       ("inputSchema", JObj
        [("type", JStr "object");
         ("properties", JObj
          [("userId", JObj [("type", JStr "string"); ("description", JStr "User ID")]);
           ("domain", JObj [("type", JStr "string"); ("description", JStr "Domain name")])]);
         ("required", JArr [JStr "userId"; JStr "domain"])])];
    JObj
      [("name", JStr "get_phone_numbers");
       ("description", JStr "Get phone numbers for a domain");
       ("inputSchema", JObj
        [("type", JStr "object");
         ("properties", JObj
          [("domain", JObj [("type", JStr "string"); ("description", JStr "Domain name")]);
           ("limit", JObj
            [("type", JStr "number");
             ("description", JStr "Maximum number of results (optional)")])]);
         ("required", JArr [JStr "domain"])])];
    JObj
      [("name", JStr "get_phone_number");
       ("description", JStr "Get details of a specific phone number");
       ("inputSchema", JObj
        [("type", JStr "object");
         ("properties", JObj
          [("domain", JObj [("type", JStr "string"); ("description", JStr "Domain name")]);
           ("phoneNumber", JObj
            [("type", JStr "string");
             ("description", JStr "Phone number to lookup")])]);
         ("required", JArr [JStr "domain"; JStr "phoneNumber"])])];
    JObj
      [("name", JStr "get_call_queues");
       ("description", JStr "Get call queues for a domain");
       ("inputSchema", JObj
        [("type", JStr "object");
         ("properties", JObj
          [("domain", JObj [("type", JStr "string"); ("description", JStr "Domain name")])]);
         ("required", JArr [JStr "domain"])])];
    JObj
      [("name", JStr "get_call_queue");
       ("description", JStr "Get details of a specific call queue");
       ("inputSchema", JObj
        [("type", JStr "object");
         ("properties", JObj
          [("domain", JObj [("type", JStr "string"); ("description", JStr "Domain name")]);
           ("queueId", JObj
            [("type", JStr "string");
             ("description", JStr "Call queue ID")])]);
         ("required", JArr [JStr "domain"; JStr "queueId"])])];
    JObj
      [("name", JStr "get_call_queue_agents");
       ("description", JStr "Get agents assigned to a call queue");
       ("inputSchema", JObj
        [("type", JStr "object");
         ("properties", JObj
          [("domain", JObj [("type", JStr "string"); ("description", JStr "Domain name")]);
           ("queueId", JObj
            [("type", JStr "string");
             ("description", JStr "Call queue ID")])]);
         ("required", JArr [JStr "domain"; JStr "queueId"])])];
    JObj
      [("name", JStr "get_agents");
       ("description", JStr "Get agents for a domain");
       ("inputSchema", JObj
        [("type", JStr "object");
         ("properties", JObj
          [("domain", JObj [("type", JStr "string"); ("description", JStr "Domain name")])]);
         ("required", JArr [JStr "domain"])])];
    JObj
      [("name", JStr "login_agent");
       ("description", JStr "Login an agent to a call queue");
       ("inputSchema", JObj
        [("type", JStr "object");
         ("properties", JObj
          [("domain", JObj [("type", JStr "string"); ("description", JStr "Domain name")]);
           ("queueId", JObj
            [("type", JStr "string");
             ("description", JStr "Call queue ID")]);
           ("agentId", JObj [("type", JStr "string"); ("description", JStr "Agent ID")])]);
         ("required", JArr [JStr "domain"; JStr "queueId"; JStr "agentId"])])];
    JObj
      [("name", JStr "logout_agent");
       ("description", JStr "Logout an agent from a call queue");
       ("inputSchema", JObj
        [("type", JStr "object");
         ("properties", JObj
          [("domain", JObj [("type", JStr "string"); ("description", JStr "Domain name")]);
           ("queueId", JObj
            [("type", JStr "string");
             ("description", JStr "Call queue ID")]);
           ("agentId", JObj [("type", JStr "string"); ("description", JStr "Agent ID")])]);
         ("required", JArr [JStr "domain"; JStr "queueId"; JStr "agentId"])])];
    JObj
      [("name", JStr "get_auto_attendants");
       ("description", JStr "Get auto attendants for a domain");
       ("inputSchema", JObj
        [("type", JStr "object");
         ("properties", JObj
          [("domain", JObj [("type", JStr "string"); ("description", JStr "Domain name")])]);
         ("required", JArr [JStr "domain"])])];
    JObj
      [("name", JStr "get_user_answer_rules");
       ("description", JStr "Get answer rules for a user");
       ("inputSchema", JObj
        [("type", JStr "object");
         ("properties", JObj
          [("userId", JObj [("type", JStr "string"); ("description", JStr "User ID")]);
           ("domain", JObj [("type", JStr "string"); ("description", JStr "Domain name")])]);
         ("required", JArr [JStr "userId"; JStr "domain"])])];
    JObj
      [("name", JStr "get_user_answer_rule");
       ("description", JStr "Get specific answer rule for a user");
       ("inputSchema", JObj
        [("type", JStr "object");
         ("properties", JObj
          [("userId", JObj [("type", JStr "string"); ("description", JStr "User ID")]);
           ("domain", JObj [("type", JStr "string"); ("description", JStr "Domain name")]);
           ("timeframe", JObj
            [("type", JStr "string");
             ("description", JStr "Timeframe for the answer rule")])]);
         ("required", JArr [JStr "userId"; JStr "domain"; JStr "timeframe"])])];
    JObj
      [("name", JStr "get_user_greetings");
       ("description", JStr "Get greetings for a user");
       ("inputSchema", JObj
        [("type", JStr "object");
         ("properties", JObj
          [("userId", JObj [("type", JStr "string"); ("description", JStr "User ID")]);
           ("domain", JObj [("type", JStr "string"); ("description", JStr "Domain name")])]);
         ("required", JArr [JStr "userId"; JStr "domain"])])];
    JObj
      [("name", JStr "get_user_voicemails");
       ("description", JStr "Get voicemails for a user");
       ("inputSchema", JObj
        [("type", JStr "object");
         ("properties", JObj
          [("userId", JObj [("type", JStr "string"); ("description", JStr "User ID")]);
           ("domain", JObj [("type", JStr "string"); ("description", JStr "Domain name")])]);
         ("required", JArr [JStr "userId"; JStr "domain"])])];
    JObj
      [("name", JStr "get_music_on_hold");
       ("description", JStr "Get music on hold files for a domain");
       ("inputSchema", JObj
        [("type", JStr "object");
         ("properties", JObj
          [("domain", JObj [("type", JStr "string"); ("description", JStr "Domain name")])]);
         ("required", JArr [JStr "domain"])])];
    JObj
      [("name", JStr "get_billing");
       ("description", JStr "Get billing information for a domain");
       ("inputSchema", JObj
        [("type", JStr "object");
         ("properties", JObj
          [("domain", JObj [("type", JStr "string"); ("description", JStr "Domain name")])]);
         ("required", JArr [JStr "domain"])])];
    JObj
      [("name", JStr "get_agent_statistics");
       ("description", JStr "Get agent statistics for a domain");
       ("inputSchema", JObj
        [("type", JStr "object");
         ("properties", JObj
          [("domain", JObj [("type", JStr "string"); ("description", JStr "Domain name")]);
           ("agentId", JObj
            [("type", JStr "string");
             ("description", JStr "Optional specific agent ID")])]);
         ("required", JArr [JStr "domain"])])];
    JObj
      [("name", JStr "test_connection");
       ("description", JStr "Test connectivity to NetSapiens API");
       ("inputSchema", JObj [("type", JStr "object"); ("properties", JObj [])])] ].

(** The handler of [ListToolsRequestSchema]. *)
Definition listTools : Http JsVal :=
  ret (JObj [("tools", JArr catalog)]).

Definition toolName (tool : JsVal) : string :=
  match tool with
  | JObj o => match getProp "name" o with JStr s => s | _ => EmptyString end
  | _ => EmptyString
  end.

Definition inputSchema (tool : JsVal) : JsObject :=
  match tool with
  | JObj o => match getProp "inputSchema" o with JObj sch => sch | _ => [] end
  | _ => []
  end.

(** The [required] array of a descriptor's schema; a schema without the
    key requires nothing. *)
Definition requiredFields (tool : JsVal) : list string :=
  match getProp "required" (inputSchema tool) with
  | JArr l => flat_map (fun x => match x with JStr s => [s] | _ => [] end) l
  | _ => []
  end.

(** The properties for which a descriptor's schema declares a [default],
    each with that default. *)
Definition schemaDefaults (tool : JsVal) : list (string * JsVal) :=
  match getProp "properties" (inputSchema tool) with
  | JObj props =>
      flat_map (fun kv =>
                  match snd kv with
                  | JObj p =>
                      match getProp "default" p with
                      | JUndefined => []
                      | d => [(fst kv, d)]
                      end
                  | _ => []
                  end) props
  | _ => []
  end.

Definition findTool (name : string) : option JsVal :=
  find (fun tool => String.eqb (toolName tool) name) catalog.

(** ** The dispatcher: [CallToolRequestSchema] *)

(** A [switch] over string labels: the first label strictly equal to the
    scrutinee selects its branch. *)
Fixpoint switch {A} (scrutinee : string) (cases : list (string * A)) (default : A) : A :=
  match cases with
  | [] => default
  | (label, branch) :: rest =>
      if String.eqb scrutinee label then branch else switch scrutinee rest default
  end.

(** Error.prototype.toString. *)
Definition errorToString (name : string) (message : option string) : string :=
  match message with
  | Some m => if String.eqb m EmptyString then name else name ++ ": " ++ m
  | None => name
  end.

(** [`${error}`] for a caught value that is not an [McpError]; only a
    TypeError reaches it, the gateway lets no transport error through. *)
Definition thrownToString (e : Thrown) : string :=
  match e with
  | ThrowAxios a => errorToString "AxiosError" (axios_message a)
  | ThrowMcp e => errorToString "McpError" (Some (McpError_message e))
  | ThrowTypeError d => errorToString "TypeError" (Some d)
  end.

Definition handlers (args : option JsObject) : list (string * Http JsVal) :=
  [("search_users", handleSearchUsers args);
   ("get_user", handleGetUser args);
   ("get_cdr_records", handleGetCDRRecords args);
   ("get_domains", handleGetDomains args);
   ("get_domain", handleGetDomain args);
   ("get_user_devices", handleGetUserDevices args);
   ("get_phone_numbers", handleGetPhoneNumbers args);
   ("get_phone_number", handleGetPhoneNumber args);
   ("get_call_queues", handleGetCallQueues args);
   ("get_call_queue", handleGetCallQueue args);
   ("get_call_queue_agents", handleGetCallQueueAgents args);
   ("get_agents", handleGetAgents args);
   ("login_agent", handleLoginAgent args);
   ("logout_agent", handleLogoutAgent args);
   ("get_auto_attendants", handleGetAutoAttendants args);
   ("get_user_answer_rules", handleGetUserAnswerRules args);
   ("get_user_answer_rule", handleGetUserAnswerRule args);
   ("get_user_greetings", handleGetUserGreetings args);
   ("get_user_voicemails", handleGetUserVoicemails args);
   ("get_music_on_hold", handleGetMusicOnHold args);
   ("get_billing", handleGetBilling args);
   ("get_agent_statistics", handleGetAgentStatistics args);
   ("test_connection", handleTestConnection args)].

Definition callTool (name : string) (args : option JsObject) : Http JsVal :=
  try
    (switch name (handlers args)
       (throw (ThrowMcp (mkMcpError MethodNotFound ("Unknown tool: " ++ name)))))
  catch (fun err =>
     match err with
     | ThrowMcp _ => throw err
     | _ =>
         throw (ThrowMcp (mkMcpError InternalError
                            ("Error executing tool " ++ name ++ ": "
                             ++ thrownToString err)))
     end).

(** ** The gateway as an interface

    One constructor per method of [NetSapiensClient], so that a statement
    can range over every method and every argument list. *)

Inductive GatewayCall :=
| SearchUsers (query domain limit : JsVal)
| GetUser (userId domain : JsVal)
| GetCDRRecords (params : JsObject)
| GetDomains
| GetDomain (domain : JsVal)
| GetUserDevices (userId domain : JsVal)
| GetPhoneNumbers (domain limit : JsVal)
| GetPhoneNumber (domain phoneNumber : JsVal)
| GetCallQueues (domain : JsVal)
| GetCallQueue (domain queueId : JsVal)
| GetCallQueueAgents (domain queueId : JsVal)
| GetAgents (domain : JsVal)
| LoginAgent (domain queueId agentId : JsVal)
| LogoutAgent (domain queueId agentId : JsVal)
| GetAutoAttendants (domain : JsVal)
| GetUserAnswerRules (userId domain : JsVal)
| GetUserAnswerRule (userId domain timeframe : JsVal)
| GetUserGreetings (userId domain : JsVal)
| GetUserVoicemails (userId domain : JsVal)
| GetMusicOnHold (domain : JsVal)
| GetBilling (domain : JsVal)
| GetAgentStatistics (domain agentId : JsVal)
| TestConnection.

Definition invoke (c : GatewayCall) : Http NetSapiensApiResponse :=
  match c with
  | SearchUsers query domain limit => searchUsers query domain limit
  | GetUser userId domain => getUser userId domain
  | GetCDRRecords params => getCDRRecords params
  | GetDomains => getDomains
  | GetDomain domain => getDomain domain
  | GetUserDevices userId domain => getUserDevices userId domain
  | GetPhoneNumbers domain limit => getPhoneNumbers domain limit
  | GetPhoneNumber domain phoneNumber => getPhoneNumber domain phoneNumber
  | GetCallQueues domain => getCallQueues domain
  | GetCallQueue domain queueId => getCallQueue domain queueId
  | GetCallQueueAgents domain queueId => getCallQueueAgents domain queueId
  | GetAgents domain => getAgents domain
  | LoginAgent domain queueId agentId => loginAgent domain queueId agentId
  | LogoutAgent domain queueId agentId => logoutAgent domain queueId agentId
  | GetAutoAttendants domain => getAutoAttendants domain
  | GetUserAnswerRules userId domain => getUserAnswerRules userId domain
  | GetUserAnswerRule userId domain timeframe =>
      getUserAnswerRule userId domain timeframe
  | GetUserGreetings userId domain => getUserGreetings userId domain
  | GetUserVoicemails userId domain => getUserVoicemails userId domain
  | GetMusicOnHold domain => getMusicOnHold domain
  | GetBilling domain => getBilling domain
  | GetAgentStatistics domain agentId => getAgentStatistics domain agentId
  | TestConnection => testConnection
  end.

(** The declared return type of a method: [NetSapiensApiResponse<T[]>],
    [NetSapiensApiResponse<T>] (with [any] for the agent operations and the
    statistics) or [NetSapiensApiResponse<boolean>]. *)
Inductive ResultKind := ListOf | SingleEntity | Flag.

Definition kindOf (c : GatewayCall) : ResultKind :=
  match c with
  | SearchUsers _ _ _ | GetCDRRecords _ | GetDomains | GetUserDevices _ _
  | GetPhoneNumbers _ _ | GetCallQueues _ | GetCallQueueAgents _ _
  | GetAgents _ | GetAutoAttendants _ | GetUserAnswerRules _ _
  | GetUserGreetings _ _ | GetUserVoicemails _ _ | GetMusicOnHold _ => ListOf
  | GetUser _ _ | GetDomain _ | GetPhoneNumber _ _ | GetCallQueue _ _
  | LoginAgent _ _ _ | LogoutAgent _ _ _ | GetUserAnswerRule _ _ _
  | GetBilling _ | GetAgentStatistics _ _ => SingleEntity
  | TestConnection => Flag
  end.

Definition emptyValue (k : ResultKind) : JsVal :=
  match k with
  | ListOf => JArr []
  | SingleEntity => JUndefined
  | Flag => JBool false
  end.

(** The text a method reports when the caught error has no message. *)
Definition fallbackText (c : GatewayCall) : string :=
  match c with
  | SearchUsers _ _ _ => "Failed to search users"
  | GetUser _ _ => "Failed to get user"
  | GetCDRRecords _ => "Failed to get CDR records"
  | GetDomains => "Failed to get domains"
  | GetDomain _ => "Failed to get domain"
  | GetUserDevices _ _ => "Failed to get user devices"
  | GetPhoneNumbers _ _ => "Failed to get phone numbers"
  | GetPhoneNumber _ _ => "Failed to get phone number"
  | GetCallQueues _ => "Failed to get call queues"
  | GetCallQueue _ _ => "Failed to get call queue"
  | GetCallQueueAgents _ _ => "Failed to get call queue agents"
  | GetAgents _ => "Failed to get agents"
  | LoginAgent _ _ _ => "Failed to login agent"
  | LogoutAgent _ _ _ => "Failed to logout agent"
  | GetAutoAttendants _ => "Failed to get auto attendants"
  | GetUserAnswerRules _ _ => "Failed to get answer rules"
  | GetUserAnswerRule _ _ _ => "Failed to get answer rule"
  | GetUserGreetings _ _ => "Failed to get user greetings"
  | GetUserVoicemails _ _ => "Failed to get user voicemails"
  | GetMusicOnHold _ => "Failed to get music on hold"
  | GetBilling _ => "Failed to get billing information"
  | GetAgentStatistics _ _ => "Failed to get agent statistics"
  | TestConnection => "Connection failed"
  end.

(** The message text of a transport error, if it has one that is not
    empty. *)
Definition messageText (e : AxiosError) : option string :=
  match axios_message e with
  | Some m => if String.eqb m EmptyString then None else Some m
  | None => None
  end.

(** The message a method attaches to a successful result. *)
Definition successMessage (c : GatewayCall) : JsVal :=
  match c with
  | LoginAgent _ _ _ => JStr "Agent logged in successfully"
  | LogoutAgent _ _ _ => JStr "Agent logged out successfully"
  | TestConnection => JStr "Connection successful"
  | _ => JUndefined
  end.

(** The result of a method, by what the transport made of its request. *)
Definition resultOf (c : GatewayCall) (answer : HttpOutcome) : NetSapiensApiResponse :=
  match answer with
  | Resolved d =>
      {| success := true;
         data := match kindOf c with
                 | ListOf => if isArray d then d else JArr [d]
                 | SingleEntity => d
                 | Flag => JBool true
                 end;
         error := JUndefined;
         message := successMessage c |}
  | Rejected e =>
      {| success := false;
         error := JStr (match messageText e with
                        | Some m => m
                        | None => fallbackText c
                        end);
         data := emptyValue (kindOf c);
         message := JUndefined |}
  end.

(** The state after a request: it is recorded, and a rejection is logged
    by the interceptor. *)
Definition after (req : Request) (answer : HttpOutcome) (w : World) : World :=
  let w := mkWorld (issued w ++ [req])%list (console w) in
  match answer with
  | Resolved _ => w
  | Rejected e => interceptor req e w
  end.

Definition emptyWorld : World := mkWorld [] [].

(** A value a template literal can substitute: its conversion to a string
    does not throw. *)
Definition printable (v : JsVal) : bool :=
  match ToString v with Some _ => true | None => false end.

Definition printableArgs (o : JsObject) : bool :=
  forallb (fun kv => printable (snd kv)) o.

(** The arguments a method substitutes into its endpoint, or would if they
    were not falsy. *)
Definition pathArguments (c : GatewayCall) : list JsVal :=
  match c with
  | SearchUsers _ domain _ => [domain]
  | GetUser userId domain => [domain; userId]
  | GetCDRRecords params =>
      if truthy (getProp "user" params) && truthy (getProp "domain" params)
      then [getProp "domain" params; getProp "user" params]
      else [getProp "domain" params]
  | GetDomains => []
  | GetDomain domain => [domain]
  | GetUserDevices userId domain => [domain; userId]
  | GetPhoneNumbers domain _ => [domain]
  | GetPhoneNumber domain phoneNumber => [domain; phoneNumber]
  | GetCallQueues domain => [domain]
  | GetCallQueue domain queueId => [domain; queueId]
  | GetCallQueueAgents domain queueId => [domain; queueId]
  | GetAgents domain => [domain]
  | LoginAgent domain queueId agentId => [domain; queueId; agentId]
  | LogoutAgent domain queueId agentId => [domain; queueId; agentId]
  | GetAutoAttendants domain => [domain]
  | GetUserAnswerRules userId domain => [domain; userId]
  | GetUserAnswerRule userId domain timeframe => [domain; userId; timeframe]
  | GetUserGreetings userId domain => [domain; userId]
  | GetUserVoicemails userId domain => [domain; userId]
  | GetMusicOnHold domain => [domain]
  | GetBilling domain => [domain]
  | GetAgentStatistics domain agentId => [domain; agentId]
  | TestConnection => []
  end.

(** The result of a method that could not build its endpoint: the
    TypeError is caught like any other error. *)
Definition refusal (c : GatewayCall) : NetSapiensApiResponse :=
  {| success := false;
     error := messageOf cannotConvert;
     data := emptyValue (kindOf c);
     message := JUndefined |}.

(** ** The catalogue as the dispatcher's contract *)

Definition toolNames : list string := map toolName catalog.

Definition requiredOf (name : string) : list string :=
  match findTool name with
  | Some tool => requiredFields tool
  | None => []
  end.

(** Every parameter the descriptor marks required is present and truthy. *)
Definition validated (name : string) (o : JsObject) : bool :=
  forallb (fun field => truthy (getProp field o)) (requiredOf name).

(** The gateway call a tool delegates to, with the arguments it passes. *)
Definition delegate (name : string) (o : JsObject) : option GatewayCall :=
  switch name
    [("search_users",
      Some (SearchUsers (getProp "query" o) (getProp "domain" o)
              (withDefault (getProp "limit" o) (JNum 20))));
     ("get_user", Some (GetUser (getProp "userId" o) (getProp "domain" o)));
     ("get_cdr_records",
      Some (GetCDRRecords
              [("startDate", getProp "startDate" o);
               ("endDate", getProp "endDate" o);
               ("user", getProp "user" o);
               ("domain", getProp "domain" o);
               ("limit", withDefault (getProp "limit" o) (JNum 100))]));
     ("get_domains", Some GetDomains);
     ("get_domain", Some (GetDomain (getProp "domain" o)));
     ("get_user_devices",
      Some (GetUserDevices (getProp "userId" o) (getProp "domain" o)));
     ("get_phone_numbers",
      Some (GetPhoneNumbers (getProp "domain" o) (getProp "limit" o)));
     ("get_phone_number",
      Some (GetPhoneNumber (getProp "domain" o) (getProp "phoneNumber" o)));
     ("get_call_queues", Some (GetCallQueues (getProp "domain" o)));
     ("get_call_queue",
      Some (GetCallQueue (getProp "domain" o) (getProp "queueId" o)));
     ("get_call_queue_agents",
      Some (GetCallQueueAgents (getProp "domain" o) (getProp "queueId" o)));
     ("get_agents", Some (GetAgents (getProp "domain" o)));
     ("login_agent",
      Some (LoginAgent (getProp "domain" o) (getProp "queueId" o)
              (getProp "agentId" o)));
     ("logout_agent",
      Some (LogoutAgent (getProp "domain" o) (getProp "queueId" o)
              (getProp "agentId" o)));
     ("get_auto_attendants", Some (GetAutoAttendants (getProp "domain" o)));
     ("get_user_answer_rules",
      Some (GetUserAnswerRules (getProp "userId" o) (getProp "domain" o)));
     ("get_user_answer_rule",
      Some (GetUserAnswerRule (getProp "userId" o) (getProp "domain" o)
              (getProp "timeframe" o)));
     ("get_user_greetings",
      Some (GetUserGreetings (getProp "userId" o) (getProp "domain" o)));
     ("get_user_voicemails",
      Some (GetUserVoicemails (getProp "userId" o) (getProp "domain" o)));
     ("get_music_on_hold", Some (GetMusicOnHold (getProp "domain" o)));
     ("get_billing", Some (GetBilling (getProp "domain" o)));
     ("get_agent_statistics",
      Some (GetAgentStatistics (getProp "domain" o) (getProp "agentId" o)));
     ("test_connection", Some TestConnection)]
    None.

(** The object a handler returns, by the envelope it serializes. *)
Definition reply (envelope : JsObject) : JsVal :=
  JObj [("content",
         JArr [JObj [("type", JStr "text");
                     ("text", JSON_stringify (JObj envelope))]])].

(** The object a handler serializes: the four-key envelope, and the
    three-key one of [test_connection]. *)
Definition envelope (r : NetSapiensApiResponse) (msg : string) : JsObject :=
  [("success", JBool (success r));
   ("message", JStr msg);
   ("data", data r);
   ("error", error r)].

Definition envelopeWithoutData (r : NetSapiensApiResponse) (msg : string) : JsObject :=
  [("success", JBool (success r));
   ("message", JStr msg);
   ("error", error r)].

(** Case-insensitive occurrence of a field name in an error message. *)
Definition toLower (c : ascii) : ascii :=
  let n := nat_of_ascii c in
  if Nat.leb 65 n && Nat.leb n 90 then ascii_of_nat (n + 32) else c.

Fixpoint lowercase (s : string) : string :=
  match s with
  | EmptyString => EmptyString
  | String c rest => String (toLower c) (lowercase rest)
  end.

Fixpoint isInfix (needle hay : string) : bool :=
  String.prefix needle hay
  || match hay with
     | EmptyString => false
     | String _ rest => isInfix needle rest
     end.

Definition mentions (field text : string) : bool :=
  isInfix (lowercase field) (lowercase text).

(** ** Notions the statements use *)

Definition defaultsOf (name : string) : list (string * JsVal) :=
  match findTool name with
  | Some tool => schemaDefaults tool
  | None => []
  end.

(** The operation table of section 4.2 of the specification: each
    operation with its required inputs, in the order of the table. *)
Definition spec_required_table : list (string * list string) :=
  [("search_users", ["query"]);
   ("get_user", ["userId"; "domain"]);
   ("get_cdr_records", []);
   ("get_domains", []);
   ("get_domain", ["domain"]);
   ("get_user_devices", ["userId"; "domain"]);
   ("get_phone_numbers", ["domain"]);
   ("get_phone_number", ["domain"; "phoneNumber"]);
   ("get_call_queues", ["domain"]);
   ("get_call_queue", ["domain"; "queueId"]);
   ("get_call_queue_agents", ["domain"; "queueId"]);
   ("get_agents", ["domain"]);
   ("login_agent", ["domain"; "queueId"; "agentId"]);
   ("logout_agent", ["domain"; "queueId"; "agentId"]);
   ("get_auto_attendants", ["domain"]);
   ("get_user_answer_rules", ["userId"; "domain"]);
   ("get_user_answer_rule", ["userId"; "domain"; "timeframe"]);
   ("get_user_greetings", ["userId"; "domain"]);
   ("get_user_voicemails", ["userId"; "domain"]);
   ("get_music_on_hold", ["domain"]);
   ("get_billing", ["domain"]);
   ("get_agent_statistics", ["domain"]);
   ("test_connection", [])].

(** The descriptors of the catalogue that carry a given name. *)
Definition descriptorsNamed (name : string) : list JsVal :=
  filter (fun tool => String.eqb (toolName tool) name) catalog.

(** The count a list tool prints: the length of the array it returns. *)
Definition countText (d : JsVal) : string :=
  numberToString (Z.of_nat (match d with JArr l => List.length l | _ => 1 end)).

(** The endpoint [get_cdr_records] builds for an argument map, when its
    substitutions convert to strings. *)
Definition cdrEndpoint (o : JsObject) : option string :=
  let user := getProp "user" o in
  let domain := getProp "domain" o in
  if truthy user && truthy domain then
    match ToString domain, ToString user with
    | Some d, Some u => Some ("/domains/" ++ d ++ "/users/" ++ u ++ "/cdrs")
    | _, _ => None
    end
  else if truthy domain then
    match ToString domain with
    | Some d => Some ("/domains/" ++ d ++ "/cdrs")
    | None => None
    end
  else Some "/cdrs".

(** The parameters [get_cdr_records] attaches to its request. *)
Definition cdrParams (o : JsObject) : JsObject :=
  [("start_time", getProp "startDate" o);
   ("end_time", getProp "endDate" o);
   ("limit", if truthy (getProp "limit" o) then getProp "limit" o else JNum 100)].

(** What [get_cdr_records] makes of an argument map: the request, if the
    endpoint can be built, and the reply. *)
Definition cdrOutcome (o : JsObject) (t : Transport) (w : World) : Outcome JsVal * World :=
  match cdrEndpoint o with
  | Some path =>
      let req := mkRequest GET path (cdrParams o) in
      let r := resultOf (GetCDRRecords []) (t req) in
      (Returned
         (reply
            (envelope r
               (match t req with
                | Resolved d => "Retrieved " ++ countText d ++ " CDR records"
                | Rejected e =>
                    "Failed to get CDR records: "
                    ++ match messageText e with
                       | Some m => m
                       | None => "Failed to get CDR records"
                       end
                end))),
       after req (t req) w)
  | None =>
      (Returned
         (reply
            (envelope (refusal (GetCDRRecords []))
               "Failed to get CDR records: Cannot convert object to primitive value")),
       w)
  end.

(** The properties of an object that [JSON.stringify] keeps. *)
Definition definedProps (o : JsObject) : JsObject :=
  filter (fun kv => negb (isUndefined (snd kv))) o.

(** The text of an object with the given members at the outermost level,
    and one member of it. *)
Definition objectText (members : list string) : string :=
  "{" ++ newline ++ gap ++ join ("," ++ newline ++ gap) members ++ newline ++ "}".

Definition member (key value : string) : string :=
  QuoteJSONString key ++ ": " ++ value.

Definition textReply (text : string) : JsVal :=
  JObj [("content", JArr [JObj [("type", JStr "text"); ("text", JStr text)]])].


(** ** Start-up: the configuration and the HTTP client

    [getConfig] of [src/index.ts], the constructor of [NetSapiensClient]
    and [run].  The environment is [process.env]: a variable is a string
    or is not set. *)

Module Config.

Definition Env := string -> option string.

Record RateLimit := mkRateLimit {
  requests : Z;
  perMilliseconds : Z
}.

Record NetSapiensConfig := mkNetSapiensConfig {
  apiUrl : string;
  apiToken : string;
  timeout : option Z;
  rateLimit : option RateLimit
}.

Record MCPServerConfig := mkMCPServerConfig {
  name : string;
  version : string;
  netsapiens : NetSapiensConfig;
  debug : option bool
}.

(** [process.env.X || fallback]: the fallback replaces a variable that is
    not set or is the empty string. *)
Definition envOr (v : option string) (fallback : string) : string :=
  match v with
  | Some s => if String.eqb s EmptyString then fallback else s
  | None => fallback
  end.

(** [getConfig]: the configuration, or the message of the [Error] it
    throws. *)
Definition getConfig (env : Env) : string + MCPServerConfig :=
  let apiToken := env "NETSAPIENS_API_TOKEN" in
  match apiToken with
  | None => inl "NETSAPIENS_API_TOKEN environment variable is required"
  | Some apiToken =>
      if String.eqb apiToken EmptyString then
        inl "NETSAPIENS_API_TOKEN environment variable is required"
      else
        inr {| name := "oitvoip-mcp-server";
               version := "1.0.0";
               netsapiens :=
                 {| apiUrl := envOr (env "NETSAPIENS_API_URL")
                                "https://api.ucaasnetwork.com";
                    apiToken := apiToken;
                    timeout := Some 30000%Z;
                    rateLimit := Some (mkRateLimit 100 60000) |};
               debug := match env "DEBUG" with
                        | Some v => Some (String.eqb v "true")
                        | None => Some false
                        end |}
  end.

(** The request config the constructor passes to [axios.create]. *)
Record AxiosConfig := mkAxiosConfig {
  baseURL : string;
  clientTimeout : Z;
  headers : list (string * string)
}.

(** The constructor of [NetSapiensClient]: [config.timeout || 30000]
    replaces a timeout that is missing or zero. *)
Definition NetSapiensClient (config : NetSapiensConfig) : AxiosConfig :=
  {| baseURL := apiUrl config ++ "/ns-api/v2";
     clientTimeout := match timeout config with
                      | Some n => if Z.eqb n 0 then 30000%Z else n
                      | None => 30000%Z
                      end;
     headers := [("Authorization", "Bearer " ++ apiToken config);
                 ("Content-Type", "application/json");
                 ("Accept", "application/json");
                 ("User-Agent", "OITVOIP-MCP-Server/1.0.0")] |}.

(** The module body: [const config = getConfig()], then the server's
    constructor builds its [NetSapiensClient] from [config.netsapiens]. *)
Definition startClient (env : Env) : string + AxiosConfig :=
  match getConfig env with
  | inl thrown => inl thrown
  | inr config => inr (NetSapiensClient (netsapiens config))
  end.

(** [run], once the transport is connected: the lines it writes to
    [console.error]. *)
Definition run (config : MCPServerConfig) : list string :=
  match debug config with
  | Some true =>
      ["OITVOIP MCP Server started successfully";
       "NetSapiens API URL: " ++ apiUrl (netsapiens config)]
  | _ => []
  end.

Definition header (key : string) (client : AxiosConfig) : option string :=
  match find (fun kv => String.eqb (fst kv) key) (headers client) with
  | Some kv => Some (snd kv)
  | None => None
  end.

End Config.

(** The properties a descriptor's schema declares. *)
Definition declaredProperties (name : string) : list string :=
  match findTool name with
  | Some tool =>
      match getProp "properties" (inputSchema tool) with
      | JObj props => keys props
      | _ => []
      end
  | None => []
  end.

(** Two answers a caller cannot tell apart: the same body, or rejections
    with the same message. *)
Definition sameAnswer (a b : HttpOutcome) : Prop :=
  match a, b with
  | Resolved d1, Resolved d2 => d1 = d2
  | Rejected e1, Rejected e2 => axios_message e1 = axios_message e2
  | _, _ => False
  end.

(** The cause a failed call reports: the message of the rejection, or
    the fixed text of the gateway method when the rejection has none. *)
Definition causeOf (c : GatewayCall) (e : AxiosError) : string :=
  match messageText e with
  | Some m => m
  | None => fallbackText c
  end.

(** The message of [login_agent], [logout_agent] and [test_connection],
    by the outcome. *)
Definition sessionMessage (name : string) (succeeded : bool) : string :=
  if String.eqb name "login_agent" then
    if succeeded then "Agent logged in successfully" else "Failed to login agent"
  else if String.eqb name "logout_agent" then
    if succeeded then "Agent logged out successfully" else "Failed to logout agent"
  else
    if succeeded then "Connection successful" else "Connection failed".

(** * Properties *)

(** ** The effect monad and the conversions *)

Lemma orElse_message (e : AxiosError) (fallback : string) :
  orElse (ofOption (axios_message e)) (JStr fallback)
  = JStr (match messageText e with Some m => m | None => fallback end).
Proof.
  unfold orElse, messageText.
  destruct (axios_message e) as [m|]; simpl; [|reflexivity].
  destruct (String.eqb m EmptyString); reflexivity.
Qed.

(** A guarded request: what [try { ... await client.request ... } catch]
    computes, whatever the two branches make of the answer. *)
Lemma try_request {A} (r : Request) (k : JsVal -> A) (h : Thrown -> A) t w :
  (try (d <- client_request r ;; ret (k d)) catch (fun err => ret (h err))) t w
  = match t r with
    | Resolved d => (Returned (k d), mkWorld (issued w ++ [r]) (console w))
    | Rejected e =>
        (Returned (h (ThrowAxios e)),
         interceptor r e (mkWorld (issued w ++ [r]) (console w)))
    end.
Proof.
  unfold tryCatch, bind, client_request, ret.
  destruct (t r); reflexivity.
Qed.

(** A falsy value is one of [undefined], [null], [false], a zero, [NaN]
    and the empty string: its conversion to a string does not throw. *)
Lemma falsy_printable (v : JsVal) : truthy v = false -> printable v = true.
Proof. destruct v; cbn; try reflexivity; try discriminate. destruct b; reflexivity. Qed.

Lemma printable_getProp (key : string) (o : JsObject) :
  printableArgs o = true -> printable (getProp key o) = true.
Proof.
  induction o as [|[k v] o IH]; cbn; [reflexivity|].
  intros H. apply andb_prop in H. destruct H as [Hv Ho].
  destruct (String.eqb k key); auto.
Qed.

Lemma issued_after req answer w : issued (after req answer w) = (issued w ++ [req])%list.
Proof. destruct answer; reflexivity. Qed.

(** A state records one request more than another in one way only. *)
Lemma one_more_request (l : list Request) (a b : Request) :
  (l ++ [a])%list = (l ++ [b])%list -> a = b.
Proof. intros H. apply app_inv_head in H. congruence. Qed.

Lemma no_request_is_not_one (l : list Request) (a : Request) :
  l <> (l ++ [a])%list.
Proof.
  intros H. apply (f_equal (@List.length _)) in H.
  rewrite length_app in H. cbn in H. lia.
Qed.

Ltac unfold_gateway :=
  unfold searchUsers, getUser, getCDRRecords, getDomains, getDomain,
    getUserDevices, getPhoneNumbers, getPhoneNumber, getCallQueues,
    getCallQueue, getCallQueueAgents, getAgents, loginAgent, logoutAgent,
    getAutoAttendants, getUserAnswerRules, getUserAnswerRule,
    getUserGreetings, getUserVoicemails, getMusicOnHold, getBilling,
    getAgentStatistics, testConnection.

Ltac unfold_handlers :=
  unfold handleSearchUsers, handleGetUser, handleGetCDRRecords,
    handleGetDomains, handleGetDomain, handleGetUserDevices,
    handleGetPhoneNumbers, handleGetPhoneNumber, handleGetCallQueues,
    handleGetCallQueue, handleGetCallQueueAgents, handleGetAgents,
    handleLoginAgent, handleLogoutAgent, handleGetAutoAttendants,
    handleGetUserAnswerRules, handleGetUserAnswerRule,
    handleGetUserGreetings, handleGetUserVoicemails, handleGetMusicOnHold,
    handleGetBilling, handleGetAgentStatistics, handleTestConnection.

(** One step of a computation of [Http]: the monad, the template literals
    and the request are unfolded, the values stay as they are. *)
Ltac step_tool :=
  cbv beta iota zeta delta
    [tryCatch bind ret throw destructure fst snd client_request client_get
     client_post negb orb andb template lit toStr cannotConvert printable
     forallb].

(** The cases of the conversions of the arguments to strings. *)
Ltac split_strings :=
  repeat match goal with
         | |- context [match ToString ?v with _ => _ end] =>
             first [ is_var v | match v with getProp _ _ => idtac end ];
             let E := fresh "Es" in destruct (ToString v) eqn:E; step_tool
         end.

Ltac split_truthy :=
  repeat match goal with
         | |- context [match truthy ?v with _ => _ end] =>
             let E := fresh "Et" in destruct (truthy v) eqn:E; step_tool
         end.

(** A falsy value cannot fail to convert. *)
Ltac falsy_converts :=
  match goal with
  | Et : truthy ?v = false, Es : ToString ?v = None |- _ =>
      exfalso; apply falsy_printable in Et; unfold printable in Et;
      rewrite Es in Et; discriminate Et
  end.

(** The request a computation hands to the transport. *)
Ltac exists_request t :=
  match goal with
  | |- context [t ?r] => exists r; destruct (t r)
  end.

(** The two answers of the transport to that request. *)
Ltac destruct_answer t :=
  match goal with |- context [t ?r] => destruct (t r); step_tool end.

(** ** The gateway: one request, or none *)

(** Every method returns.  When each substitution of its endpoint converts
    to a string it issues exactly one request and its result is made of
    the answer; otherwise it issues none and reports the TypeError. *)
Lemma invoke_spec (c : GatewayCall) (t : Transport) (w : World) :
  (forallb printable (pathArguments c) = true
   /\ exists req,
        invoke c t w = (Returned (resultOf c (t req)), after req (t req) w))
  \/ (forallb printable (pathArguments c) = false
      /\ invoke c t w = (Returned (refusal c), w)).
Proof.
  destruct c; cbn [invoke pathArguments]; unfold_gateway; step_tool.
  all: split_truthy; split_strings.
  all: try falsy_converts.
  all: try (right; split; reflexivity).
  all: left; (split; [reflexivity|]).
  all: exists_request t.
  all: unfold resultOf, after; cbn [messageOf kindOf emptyValue successMessage fallbackText];
    rewrite ?orElse_message; reflexivity.
Qed.

(** Every method returns, with the state it leaves. *)
Lemma invoke_run (c : GatewayCall) (t : Transport) (w : World) :
  exists r w',
    invoke c t w = (Returned r, w')
    /\ ((forallb printable (pathArguments c) = true
         /\ exists req, r = resultOf c (t req) /\ w' = after req (t req) w)
        \/ (forallb printable (pathArguments c) = false
            /\ r = refusal c /\ w' = w)).
Proof.
  destruct (invoke_spec c t w) as [(Hp & req & Hrun) | (Hp & Hrun)];
    eexists; eexists; (split; [exact Hrun|]); [left | right]; eauto.
Qed.

(** ** The gateway converts every failure into a result *)

(** C1.  Every method of the gateway, on every transport and from every
    state, returns a result and never throws.  When the transport rejects
    the request the method issued (a non-2xx status, a timeout, a
    connection failure), the result has [success = false], its [error] is
    the message text of the rejection, or the fixed text of the operation
    when the rejection has no message or an empty one (for the devices of
    a user, "Failed to get user devices"), and its [data] is the empty
    list for a list-returning method, [undefined] for a single-entity
    method and [false] for the connectivity probe.  A method issues its
    request whenever the arguments it puts in the endpoint convert to
    strings; when one does not, the TypeError is caught too: the method
    issues no request and returns a result of the same shape, with the
    text of the TypeError (V8's) as its [error]. *)
Theorem gateway_failure_is_a_result :
  forall (c : GatewayCall) (t : Transport) (w : World),
  exists r w',
    invoke c t w = (Returned r, w')
    /\ (forall req e,
           issued w' = (issued w ++ [req])%list ->
           t req = Rejected e ->
           success r = false
           /\ error r = JStr (match messageText e with
                              | Some m => m
                              | None => fallbackText c
                              end)
           /\ data r = match kindOf c with
                       | ListOf => JArr []
                       | SingleEntity => JUndefined
                       | Flag => JBool false
                       end)
    /\ (forallb printable (pathArguments c) = true ->
        exists req, issued w' = (issued w ++ [req])%list)
    /\ (forallb printable (pathArguments c) = false ->
        issued w' = issued w
        /\ success r = false
        /\ error r = JStr "Cannot convert object to primitive value"
        /\ data r = match kindOf c with
                    | ListOf => JArr []
                    | SingleEntity => JUndefined
                    | Flag => JBool false
                    end)
    /\ (forall userId domain,
        fallbackText (GetUserDevices userId domain) = "Failed to get user devices").
Proof.
  intros c t w.
  destruct (invoke_run c t w)
    as (r & w' & Hrun & [(Hp & req0 & -> & ->) | (Hp & -> & ->)]);
    eexists; eexists; (split; [exact Hrun|]);
    (split; [|split; [|split; [|reflexivity]]]).
  - intros req e Hi He. rewrite issued_after in Hi.
    apply one_more_request in Hi. subst req0. rewrite He.
    cbn [resultOf success error data].
    split; [reflexivity|]. split; [reflexivity|].
    destruct (kindOf c); reflexivity.
  - intros _. exists req0. apply issued_after.
  - rewrite Hp. discriminate.
  - intros req e Hi. exfalso. exact (no_request_is_not_one _ _ Hi).
  - rewrite Hp. discriminate.
  - intros _. cbn [refusal success error data].
    repeat split; destruct (kindOf c); reflexivity.
Qed.

(** C1 at a 404 without a message, for a list method and a single-entity
    method. *)
Example gateway_failure_404 :
  let t := fun _ => Rejected (mkAxiosError None (Some (mkErrorResponse 404 "Not Found" JNull))) in
  fst (getUserDevices (JStr "alice") (JStr "example.com") t emptyWorld)
  = Returned (mkApiResponse false (JArr []) (JStr "Failed to get user devices") JUndefined)
  /\ fst (getUser (JStr "alice") (JStr "example.com") t emptyWorld)
     = Returned (mkApiResponse false JUndefined (JStr "Failed to get user") JUndefined).
Proof. split; reflexivity. Qed.

(** A domain that cannot be converted to a string: [{"toString": 1}]. *)
Example gateway_unprintable_domain :
  getUser (JStr "alice") (JObj [("toString", JNum 1)])
    (fun _ => Resolved JNull) emptyWorld
  = (Returned (mkApiResponse false JUndefined
                 (JStr "Cannot convert object to primitive value") JUndefined),
     emptyWorld).
Proof. reflexivity. Qed.

(** ** List-returning methods accept both shapes *)

(** C5.  For every list-returning method of the gateway: when the
    platform answers the request the method issued with a 2xx response,
    the result has [success = true]; its [data] is the body itself when
    the body is an array, and the one-element list holding the body when
    it is not (a bare object in particular).  The method issues its
    request whenever the arguments it puts in the endpoint convert to
    strings. *)
Theorem list_methods_wrap_bare_objects :
  forall (c : GatewayCall) (t : Transport) (w : World),
    kindOf c = ListOf ->
    exists r w',
      invoke c t w = (Returned r, w')
      /\ (forall req,
             issued w' = (issued w ++ [req])%list ->
             (forall l, t req = Resolved (JArr l) ->
              success r = true /\ data r = JArr l)
             /\ (forall o, t req = Resolved (JObj o) ->
                 success r = true /\ data r = JArr [JObj o])
             /\ (forall d, t req = Resolved d -> isArray d = false ->
                 success r = true /\ data r = JArr [d]))
      /\ (forallb printable (pathArguments c) = true ->
          exists req, issued w' = (issued w ++ [req])%list).
Proof.
  intros c t w Hkind.
  destruct (invoke_run c t w)
    as (r & w' & Hrun & [(Hp & req0 & -> & ->) | (Hp & -> & ->)]);
    eexists; eexists; (split; [exact Hrun|]); split.
  - intros req Hi. rewrite issued_after in Hi.
    apply one_more_request in Hi. subst req0.
    repeat split; intros; rewrite H; cbn [resultOf success data]; auto;
      rewrite Hkind; cbn [isArray]; auto.
    rewrite H0. reflexivity.
  - intros _. exists req0. apply issued_after.
  - intros req Hi. exfalso. exact (no_request_is_not_one _ _ Hi).
  - rewrite Hp. discriminate.
Qed.

Lemma list_methods_wrap_bare_objects_witness :
  let c := GetUserDevices (JStr "alice") (JStr "example.com") in
  let t := fun _ : Request => Resolved (JObj [("mac", JStr "0004f2aabbcc")]) in
  kindOf c = ListOf
  /\ exists r w',
      invoke c t emptyWorld = (Returned r, w')
      /\ (forall req,
             issued w' = (issued emptyWorld ++ [req])%list ->
             (forall l, t req = Resolved (JArr l) ->
              success r = true /\ data r = JArr l)
             /\ (forall o, t req = Resolved (JObj o) ->
                 success r = true /\ data r = JArr [JObj o])
             /\ (forall d, t req = Resolved d -> isArray d = false ->
                 success r = true /\ data r = JArr [d]))
      /\ (forallb printable (pathArguments c) = true ->
          exists req, issued w' = (issued emptyWorld ++ [req])%list).
Proof.
  intros c t. split; [reflexivity|].
  apply (list_methods_wrap_bare_objects c t emptyWorld). reflexivity.
Defined.

Example getUserDevices_bare_object :
  getUserDevices (JStr "alice") (JStr "example.com")
    (fun _ => Resolved (JObj [("mac", JStr "0004f2aabbcc")])) emptyWorld
  = (Returned (mkApiResponse true (JArr [JObj [("mac", JStr "0004f2aabbcc")]])
                 JUndefined JUndefined),
     mkWorld [mkRequest GET "/domains/example.com/users/alice/devices" []] []).
Proof. reflexivity. Qed.

(** ** The connectivity probe *)

(** C8.  [testConnection] issues one request, a GET of [/domains] with
    [limit = 1], and reports whether it was answered: on any 2xx answer,
    an empty domain list included, its result has [success = true] and
    [data = true]; on any rejection it has [success = false] and
    [data = false]. *)
Theorem testConnection_reports_reachability :
  forall (t : Transport) (w : World),
  let probe := mkRequest GET "/domains" [("limit", JNum 1)] in
  exists r w',
    testConnection t w = (Returned r, w')
    /\ issued w' = (issued w ++ [probe])%list
    /\ (forall d, t probe = Resolved d ->
        success r = true /\ data r = JBool true)
    /\ (t probe = Resolved (JArr []) ->
        success r = true /\ data r = JBool true)
    /\ (forall e, t probe = Rejected e ->
        success r = false /\ data r = JBool false).
Proof.
  intros t w probe.
  unfold testConnection, client_get. rewrite try_request. fold probe.
  destruct (t probe) as [d|e] eqn:E; eexists; eexists;
    (split; [reflexivity|]); (split; [reflexivity|]);
    repeat split; intros; try discriminate; reflexivity.
Qed.

Example testConnection_empty_list :
  fst (testConnection (fun _ => Resolved (JArr [])) emptyWorld)
  = Returned (mkApiResponse true (JBool true) JUndefined (JStr "Connection successful")).
Proof. reflexivity. Qed.

(** ** The dispatcher *)

Lemma toolNames_eq :
  toolNames =
  ["search_users"; "get_user"; "get_cdr_records"; "get_domains"; "get_domain";
   "get_user_devices"; "get_phone_numbers"; "get_phone_number";
   "get_call_queues"; "get_call_queue"; "get_call_queue_agents"; "get_agents";
   "login_agent"; "logout_agent"; "get_auto_attendants";
   "get_user_answer_rules"; "get_user_answer_rule"; "get_user_greetings";
   "get_user_voicemails"; "get_music_on_hold"; "get_billing";
   "get_agent_statistics"; "test_connection"].
Proof. reflexivity. Qed.

Ltac by_name H :=
  rewrite toolNames_eq in H; cbn [In] in H;
  repeat (destruct H as [<-|H]); [ .. | contradiction H ].

(** Case analysis on the tool a call is delegated for. *)
Ltac by_tool H :=
  unfold delegate in H; cbn [switch] in H;
  repeat match type of H with
         | (if String.eqb ?n ?l then _ else _) = _ =>
             destruct (String.eqb_spec n l) as [->|_];
             [ injection H as <- | ]
         end;
  [ .. | discriminate H ].

(** Running a call of a known tool down to its conversions and its
    request. *)
Ltac run_tool :=
  unfold callTool; cbn [switch handlers String.eqb Ascii.eqb Bool.eqb];
  unfold_handlers; unfold_gateway; step_tool.

Ltac use_validated Hv :=
  cbn in Hv;
  repeat (apply andb_prop in Hv; let H := fresh "Ht" in destruct Hv as [H Hv]);
  repeat match goal with H : truthy _ = true |- _ => rewrite H in *; clear H end.

Lemma numberToString_not_NaN (n : Z) : String.eqb (numberToString n) "NaN" = false.
Proof.
  unfold numberToString.
  destruct (Z.to_int n) as [d|d]; [destruct d|]; reflexivity.
Qed.

Lemma ToString_count (l : list JsVal) :
  ToString (orElse (lengthOf (JArr l)) (JNum 0))
  = Some (numberToString (Z.of_nat (List.length l))).
Proof.
  unfold orElse, lengthOf, JNum. cbn [truthy].
  rewrite numberToString_not_NaN, orb_false_r.
  destruct (String.eqb_spec (numberToString (Z.of_nat (List.length l))) "0") as [E|_];
    cbn [negb ToString]; [rewrite E|]; reflexivity.
Qed.

Lemma ToString_count_wrapped (d : JsVal) :
  ToString (orElse (lengthOf (if isArray d then d else JArr [d])) (JNum 0))
  = Some (countText d).
Proof.
  destruct d; cbn [isArray]; rewrite ToString_count; reflexivity.
Qed.

(** What a handler makes of the result of the gateway. *)
Ltac settle_result :=
  cbn [success data error message messageOf];
  rewrite ?orElse_message, ?ToString_count_wrapped;
  cbn [orElse truthy String.eqb Ascii.eqb Bool.eqb negb ToString];
  step_tool.

Lemma callTool_spec (name : string) (o : JsObject) (c : GatewayCall) t w :
  delegate name o = Some c ->
  validated name o = true ->
  exists r w' msg,
    invoke c t w = (Returned r, w')
    /\ (callTool name (Some o) t w
        = (Returned
             (reply (if String.eqb name "test_connection"
                     then envelopeWithoutData r msg
                     else envelope r msg)), w')
        \/ (name = "search_users"
            /\ success r = true
            /\ ToString (getProp "query" o) = None
            /\ callTool name (Some o) t w
               = (Threw (ThrowMcp (mkMcpError InternalError msg)), w'))).
Proof.
  intros Hc Hv. by_tool Hc.
  all: cbn [invoke]; run_tool; use_validated Hv; step_tool.
  all: split_truthy; split_strings; try falsy_converts.
  all: try destruct_answer t.
  all: settle_result.
  all: eexists; eexists; eexists; (split; [reflexivity|]).
  all: cbn [String.eqb Ascii.eqb Bool.eqb success].
  all: first [ left; reflexivity | right; repeat split; reflexivity ].
Qed.

Lemma delegate_total (name : string) (o : JsObject) :
  In name toolNames -> exists c, delegate name o = Some c.
Proof. intros Hn. by_name Hn; eexists; reflexivity. Qed.

(** A validated call runs the gateway method it is delegated to, whose
    result and state are known by [invoke_run]. *)
Lemma callTool_run (name : string) (o : JsObject) (c : GatewayCall) t w :
  delegate name o = Some c ->
  validated name o = true ->
  exists r w' msg,
    invoke c t w = (Returned r, w')
    /\ ((forallb printable (pathArguments c) = true
         /\ exists req, r = resultOf c (t req) /\ w' = after req (t req) w)
        \/ (forallb printable (pathArguments c) = false
            /\ r = refusal c /\ w' = w))
    /\ (callTool name (Some o) t w
        = (Returned
             (reply (if String.eqb name "test_connection"
                     then envelopeWithoutData r msg
                     else envelope r msg)), w')
        \/ (name = "search_users"
            /\ success r = true
            /\ ToString (getProp "query" o) = None
            /\ callTool name (Some o) t w
               = (Threw (ThrowMcp (mkMcpError InternalError msg)), w'))).
Proof.
  intros Hc Hv.
  destruct (callTool_spec name o c t w Hc Hv) as (r & w' & msg & Hrun & Hcall).
  destruct (invoke_run c t w) as (r0 & w0 & Hrun0 & Hcases).
  rewrite Hrun in Hrun0. injection Hrun0 as <- <-.
  exists r, w', msg. auto.
Qed.

(** Arguments that convert to strings give an endpoint. *)
Lemma delegate_printable (name : string) (o : JsObject) (c : GatewayCall) :
  delegate name o = Some c ->
  printableArgs o = true ->
  forallb printable (pathArguments c) = true.
Proof.
  intros Hc Hp. by_tool Hc.
  all: cbn [pathArguments getProp String.eqb Ascii.eqb Bool.eqb].
  all: try destruct (truthy (getProp "user" o) && truthy (getProp "domain" o)).
  all: cbn [forallb]; rewrite ?(printable_getProp _ o Hp); reflexivity.
Qed.

Lemma callTool_rejects_missing (name : string) (o : JsObject) t w :
  In name toolNames ->
  validated name o = false ->
  exists msg,
    callTool name (Some o) t w
    = (Threw (ThrowMcp (mkMcpError InvalidParams msg)), w)
    /\ forall field, In field (requiredOf name) -> mentions field msg = true.
Proof.
  intros Hn Hv. by_name Hn.
  all: cbn in Hv; try discriminate Hv.
  all: run_tool.
  all: repeat match type of Hv with
              | context [truthy ?v] => destruct (truthy v)
              end; try discriminate Hv.
  all: step_tool; eexists; (split; [reflexivity|]).
  all: intros field Hf; cbn in Hf;
    repeat (destruct Hf as [<-|Hf]); try contradiction; reflexivity.
Qed.

Lemma callTool_applies_defaults (name property : string) (d : JsVal) (o : JsObject) t w :
  In name toolNames ->
  In (property, d) (defaultsOf name) ->
  getProp property o = JUndefined ->
  callTool name (Some o) t w = callTool name (Some ((property, d) :: o)) t w.
Proof.
  intros Hn Hd Hu. by_name Hn.
  all: cbn in Hd; repeat (destruct Hd as [Hd|Hd]); try contradiction.
  all: injection Hd as <- <-.
  all: unfold callTool; cbn [switch handlers String.eqb Ascii.eqb Bool.eqb];
    unfold handleSearchUsers, handleGetCDRRecords, bind at 1;
    cbn [destructure ret]; cbv zeta.
  all: cbn [getProp String.eqb Ascii.eqb Bool.eqb].
  all: rewrite Hu; reflexivity.
Qed.

Lemma callTool_unknown (name : string) (args : option JsObject) t w :
  ~ In name toolNames ->
  callTool name args t w
  = (Threw (ThrowMcp (mkMcpError MethodNotFound ("Unknown tool: " ++ name))), w).
Proof.
  intros Hn. rewrite toolNames_eq in Hn.
  unfold callTool, tryCatch. cbn [switch handlers].
  repeat match goal with
         | |- context [String.eqb name ?l] =>
             destruct (String.eqb_spec name l) as [He|_];
             [ exfalso; apply Hn; rewrite He; cbn [In]; tauto | ]
         end.
  reflexivity.
Qed.

Lemma validated_false (name : string) (o : JsObject) (field : string) :
  In field (requiredOf name) ->
  truthy (getProp field o) = false ->
  validated name o = false.
Proof.
  intros Hin Hf. unfold validated.
  destruct (forallb _ _) eqn:E; [|reflexivity].
  rewrite forallb_forall in E. rewrite (E field Hin) in Hf. discriminate.
Qed.

Lemma withDefault_idem (v d : JsVal) :
  withDefault (withDefault v d) d = withDefault v d.
Proof. destruct v; try reflexivity. destruct d; reflexivity. Qed.

Lemma orElse_withDefault (v d : JsVal) :
  orElse (withDefault v d) d = if truthy v then v else d.
Proof.
  destruct v; try reflexivity. unfold orElse. cbn [withDefault truthy].
  destruct (truthy d); reflexivity.
Qed.

(** The request of [search_users]: the query and the limit are
    parameters, the domain selects the endpoint. *)
Lemma search_users_issued (o : JsObject) (d : string) t w :
  truthy (getProp "query" o) = true ->
  ToString (getProp "domain" o) = Some d ->
  issued (snd (callTool "search_users" (Some o) t w))
  = (issued w
     ++ [mkRequest GET
           (if truthy (getProp "domain" o)
            then "/domains/" ++ d ++ "/users"
            else "/domains/~/users/~")
           [("user", getProp "query" o);
            ("limit", withDefault (getProp "limit" o) (JNum 20))]])%list.
Proof.
  intros Hq Hd. run_tool. rewrite Hq, Hd, withDefault_idem. step_tool.
  split_truthy; destruct_answer t; settle_result; split_strings; reflexivity.
Qed.

(** The whole of [get_cdr_records]. *)
Lemma get_cdr_records_run (o : JsObject) t w :
  callTool "get_cdr_records" (Some o) t w = cdrOutcome o t w.
Proof.
  run_tool. cbn [getProp String.eqb Ascii.eqb Bool.eqb].
  rewrite orElse_withDefault.
  unfold cdrOutcome, cdrEndpoint, cdrParams. cbv zeta.
  split_truthy; cbn [andb]; split_strings; try falsy_converts; try reflexivity.
  all: destruct_answer t; settle_result; unfold causeOf; reflexivity.
Qed.

Lemma cdrEndpoint_printable (o : JsObject) :
  printableArgs o = true -> exists path, cdrEndpoint o = Some path.
Proof.
  intros Hp. unfold cdrEndpoint. cbv zeta.
  pose proof (printable_getProp "domain" o Hp) as Hd.
  pose proof (printable_getProp "user" o Hp) as Hu.
  unfold printable in Hd, Hu.
  destruct (ToString (getProp "domain" o)); [|discriminate Hd].
  destruct (ToString (getProp "user" o)); [|discriminate Hu].
  destruct (truthy (getProp "user" o) && truthy (getProp "domain" o));
    [|destruct (truthy (getProp "domain" o))]; eexists; reflexivity.
Qed.

(** ** Validation comes before any remote call *)

(** C2.  For every tool of the catalogue and every argument map: if a
    parameter the tool requires is absent or falsy, [callTool] throws an
    [McpError] with the code [InvalidParams] whose text names that
    parameter (up to the case of letters: the text of [search_users]
    writes "Query"), and the state is unchanged: no request was issued.
    A parameter with a schema-declared default that is absent from the
    arguments takes that default: the call is the call that passes the
    default, and when the required parameters are present and the
    arguments convert to strings, the request the call issues carries the
    default as the value of the parameter.  The declared defaults are
    [limit = 20] for [search_users] and [limit = 100] for
    [get_cdr_records]. *)
Theorem missing_required_fails_fast :
  forall (name : string) (o : JsObject) (t : Transport) (w : World),
    In name toolNames ->
    (forall field,
        In field (requiredOf name) ->
        truthy (getProp field o) = false ->
        exists msg,
          callTool name (Some o) t w
          = (Threw (ThrowMcp (mkMcpError InvalidParams msg)), w)
          /\ mentions field msg = true)
    /\ (forall property d,
           In (property, d) (defaultsOf name) ->
           getProp property o = JUndefined ->
           callTool name (Some o) t w
           = callTool name (Some ((property, d) :: o)) t w)
    /\ (forall property d,
           In (property, d) (defaultsOf name) ->
           getProp property o = JUndefined ->
           validated name o = true ->
           printableArgs o = true ->
           exists req,
             issued (snd (callTool name (Some o) t w)) = (issued w ++ [req])%list
             /\ getProp property (params req) = d)
    /\ defaultsOf "search_users" = [("limit", JNum 20)]
    /\ defaultsOf "get_cdr_records" = [("limit", JNum 100)].
Proof.
  intros name o t w Hn. split; [|split; [|split; [|split; reflexivity]]].
  - intros field Hin Hf.
    destruct (callTool_rejects_missing name o t w Hn
                (validated_false name o field Hin Hf)) as (msg & Hcall & Hm).
    exists msg. split; [exact Hcall | apply Hm, Hin].
  - intros property d Hd Hu. apply callTool_applies_defaults; assumption.
  - intros property d Hd Hu Hv Hp. by_name Hn.
    all: cbn in Hd; repeat (destruct Hd as [Hd|Hd]); try contradiction.
    all: injection Hd as <- <-.
    + cbn in Hv. rewrite andb_true_r in Hv.
      pose proof (printable_getProp "domain" o Hp) as Hdom. unfold printable in Hdom.
      destruct (ToString (getProp "domain" o)) as [s|] eqn:Es; [|discriminate Hdom].
      eexists. split; [apply (search_users_issued o s t w Hv Es)|].
      cbn [params getProp String.eqb Ascii.eqb Bool.eqb]. rewrite Hu. reflexivity.
    + destruct (cdrEndpoint_printable o Hp) as [path Hpath].
      rewrite get_cdr_records_run. unfold cdrOutcome. rewrite Hpath.
      cbv zeta. cbn [snd]. rewrite issued_after.
      eexists. split; [reflexivity|].
      cbn [params cdrParams getProp String.eqb Ascii.eqb Bool.eqb].
      rewrite Hu. reflexivity.
Qed.

Lemma missing_required_fails_fast_witness :
  (exists msg,
      callTool "login_agent"
        (Some [("domain", JStr "example.com"); ("queueId", JStr "sales")])
        (fun _ => Resolved JNull) emptyWorld
      = (Threw (ThrowMcp (mkMcpError InvalidParams msg)), emptyWorld)
      /\ mentions "agentId" msg = true)
  /\ (exists req,
         issued (snd (callTool "get_cdr_records" (Some [("domain", JStr "example.com")])
                        (fun _ => Resolved (JArr [])) emptyWorld))
         = (issued emptyWorld ++ [req])%list
         /\ getProp "limit" (params req) = JNum 100).
Proof.
  split.
  - refine (proj1 (missing_required_fails_fast "login_agent"
                     [("domain", JStr "example.com"); ("queueId", JStr "sales")]
                     (fun _ => Resolved JNull) emptyWorld _) "agentId" _ _).
    + cbn; tauto.
    + cbn; tauto.
    + reflexivity.
  - refine (proj1 (proj2 (proj2 (missing_required_fails_fast "get_cdr_records"
                     [("domain", JStr "example.com")]
                     (fun _ => Resolved (JArr [])) emptyWorld _)))
              "limit" (JNum 100) _ _ _ _).
    + cbn; tauto.
    + cbn; tauto.
    + reflexivity.
    + reflexivity.
    + reflexivity.
Defined.

(** The scenario of the specification: [login_agent] without [agentId]. *)
Example login_agent_without_agentId :
  callTool "login_agent"
    (Some [("domain", JStr "example.com"); ("queueId", JStr "sales")])
    (fun _ => Resolved JNull) emptyWorld
  = (Threw (ThrowMcp (mkMcpError InvalidParams
                        "domain, queueId, and agentId parameters are required")),
     emptyWorld).
Proof. reflexivity. Qed.

(** [search_users] without a limit asks the platform for 20 users. *)
Example search_users_default_limit :
  issued (snd (callTool "search_users" (Some [("query", JStr "john")])
                 (fun _ => Resolved (JArr [])) emptyWorld))
  = [mkRequest GET "/domains/~/users/~" [("user", JStr "john"); ("limit", JNum 20)]].
Proof. reflexivity. Qed.

(** Without an argument map at all a destructuring handler fails with an
    internal error, and still before any request. *)
Example get_user_without_arguments :
  exists msg,
    callTool "get_user" None (fun _ => Resolved JNull) emptyWorld
    = (Threw (ThrowMcp (mkMcpError InternalError msg)), emptyWorld).
Proof. eexists. reflexivity. Qed.

(** ** Protocol errors and domain failures *)

(** C3.  A name outside the catalogue makes [callTool] throw an
    [McpError] with the code [MethodNotFound], which is not the code
    [InvalidParams] of a validation failure.  For a tool of the catalogue
    whose required parameters are all present, the gateway method the
    tool delegates to returns a result; when the transport rejects the
    request the call issued, that result is a failure; and whenever that
    result is a failure, [callTool] throws nothing: it returns the
    ordinary reply, one text block whose text is the serialization of an
    envelope with [success = false] that carries the cause in [error].
    The call issues its request whenever its arguments convert to
    strings. *)
Theorem unknown_tool_and_gateway_failure :
  (forall (name : string) (args : option JsObject) (t : Transport) (w : World),
      ~ In name toolNames ->
      callTool name args t w
      = (Threw (ThrowMcp (mkMcpError MethodNotFound ("Unknown tool: " ++ name))), w))
  /\ MethodNotFound <> InvalidParams
  /\ (forall (name : string) (o : JsObject) (t : Transport) (w : World),
         In name toolNames ->
         validated name o = true ->
         exists c r w' msg,
           delegate name o = Some c
           /\ invoke c t w = (Returned r, w')
           /\ (forall req e,
                  issued w' = (issued w ++ [req])%list ->
                  t req = Rejected e ->
                  success r = false)
           /\ (printableArgs o = true ->
               exists req, issued w' = (issued w ++ [req])%list)
           /\ (success r = false ->
               (exists cause, error r = JStr cause)
               /\ callTool name (Some o) t w
                  = (Returned
                       (JObj [("content",
                               JArr [JObj [("type", JStr "text");
                                           ("text",
                                            JSON_stringify
                                              (JObj (if String.eqb name "test_connection"
                                                     then [("success", JBool false);
                                                           ("message", JStr msg);
                                                           ("error", error r)]
                                                     else [("success", JBool false);
                                                           ("message", JStr msg);
                                                           ("data", data r);
                                                           ("error", error r)])))]])]),
                     w'))).
Proof.
  split; [|split].
  - intros. apply callTool_unknown. assumption.
  - discriminate.
  - intros name o t w Hn Hv.
    destruct (delegate_total name o Hn) as [c Hc].
    destruct (callTool_run name o c t w Hc Hv)
      as (r & w' & msg & Hrun & Hcases & Hcall).
    exists c, r, w', msg.
    split; [exact Hc|]. split; [exact Hrun|]. split; [|split].
    + intros req e Hi He.
      destruct Hcases as [(_ & req0 & -> & ->) | (_ & -> & ->)].
      * rewrite issued_after in Hi. apply one_more_request in Hi. subst req0.
        rewrite He. reflexivity.
      * reflexivity.
    + intros Hp.
      destruct Hcases as [(_ & req0 & -> & ->) | (Hu & -> & ->)].
      * exists req0. apply issued_after.
      * rewrite (delegate_printable name o c Hc Hp) in Hu. discriminate Hu.
    + intros Hs. split.
      * destruct Hcases as [(_ & req0 & -> & _) | (_ & -> & _)].
        -- destruct (t req0); [discriminate Hs | eexists; reflexivity].
        -- eexists. reflexivity.
      * destruct Hcall as [Hcall | (_ & Hok & _)];
          [|rewrite Hok in Hs; discriminate Hs].
        rewrite Hcall. unfold reply, envelope, envelopeWithoutData. rewrite Hs.
        reflexivity.
Qed.

Lemma unknown_tool_and_gateway_failure_witness :
  exists c r w' msg,
    delegate "get_user" [("userId", JStr "alice"); ("domain", JStr "example.com")] = Some c
    /\ invoke c (fun _ => Rejected (mkAxiosError (Some "Network Error") None)) emptyWorld
       = (Returned r, w')
    /\ (forall req e,
           issued w' = (issued emptyWorld ++ [req])%list ->
           (fun _ : Request => Rejected (mkAxiosError (Some "Network Error") None)) req
           = Rejected e ->
           success r = false)
    /\ (printableArgs [("userId", JStr "alice"); ("domain", JStr "example.com")] = true ->
        exists req, issued w' = (issued emptyWorld ++ [req])%list)
    /\ (success r = false ->
        (exists cause, error r = JStr cause)
        /\ callTool "get_user"
             (Some [("userId", JStr "alice"); ("domain", JStr "example.com")])
             (fun _ => Rejected (mkAxiosError (Some "Network Error") None)) emptyWorld
           = (Returned
                (JObj [("content",
                        JArr [JObj [("type", JStr "text");
                                    ("text",
                                     JSON_stringify
                                       (JObj (if String.eqb "get_user" "test_connection"
                                              then [("success", JBool false);
                                                    ("message", JStr msg);
                                                    ("error", error r)]
                                              else [("success", JBool false);
                                                    ("message", JStr msg);
                                                    ("data", data r);
                                                    ("error", error r)])))]])]),
              w')).
Proof.
  refine (proj2 (proj2 unknown_tool_and_gateway_failure) "get_user"
            [("userId", JStr "alice"); ("domain", JStr "example.com")]
            (fun _ => Rejected (mkAxiosError (Some "Network Error") None))
            emptyWorld _ _).
  - cbn; tauto.
  - reflexivity.
Defined.

Example unknown_tool_delete_user :
  callTool "delete_user" (Some [("userId", JStr "alice")])
    (fun _ => Resolved JNull) emptyWorld
  = (Threw (ThrowMcp (mkMcpError MethodNotFound "Unknown tool: delete_user")),
     emptyWorld).
Proof. reflexivity. Qed.

Example get_user_404 :
  fst (callTool "get_user"
         (Some [("userId", JStr "alice"); ("domain", JStr "example.com")])
         (fun _ => Rejected (mkAxiosError (Some "Request failed with status code 404")
                               (Some (mkErrorResponse 404 "Not Found" JNull))))
         emptyWorld)
  = Returned (reply [("success", JBool false);
                     ("message", JStr "Failed to get user: Request failed with status code 404");
                     ("data", JUndefined);
                     ("error", JStr "Request failed with status code 404")]).
Proof. reflexivity. Qed.

(** A domain that cannot be converted to a string is a failure inside the
    reply too, and no request is issued. *)
Example get_user_unprintable_domain :
  callTool "get_user"
    (Some [("userId", JStr "alice"); ("domain", JObj [("toString", JNum 1)])])
    (fun _ => Resolved JNull) emptyWorld
  = (Returned (reply [("success", JBool false);
                      ("message",
                       JStr "Failed to get user: Cannot convert object to primitive value");
                      ("data", JUndefined);
                      ("error", JStr "Cannot convert object to primitive value")]),
     emptyWorld).
Proof. reflexivity. Qed.

(** ** The reply envelope *)

Lemma stringify_definedProps (indent : string) (o : JsObject) :
  SerializeJSONProperty indent (JObj o)
  = SerializeJSONProperty indent (JObj (definedProps o)).
Proof.
  cbn [SerializeJSONProperty].
  set (f := fun kv : string * JsVal =>
              match SerializeJSONProperty (indent ++ gap) (snd kv) with
              | Some s => [QuoteJSONString (fst kv) ++ ": " ++ s]
              | None => []
              end).
  assert (E : flat_map f o = flat_map f (definedProps o)).
  { induction o as [|[k v] o IH]; [reflexivity|].
    cbn [flat_map definedProps filter snd].
    destruct v; cbn [isUndefined negb flat_map]; rewrite IH; reflexivity. }
  rewrite E. reflexivity.
Qed.

Lemma reply_definedProps (o : JsObject) : reply o = reply (definedProps o).
Proof. unfold reply, JSON_stringify. rewrite stringify_definedProps. reflexivity. Qed.




(** The scenarios of the specification: the messages of [get_user] and of
    [search_users]. *)
Example get_user_alice :
  fst (callTool "get_user"
         (Some [("userId", JStr "alice"); ("domain", JStr "example.com")])
         (fun _ => Resolved (JObj [("user", JStr "alice");
                                   ("domain", JStr "example.com");
                                   ("email", JStr "a@example.com")]))
         emptyWorld)
  = Returned (reply [("success", JBool true);
                     ("message", JStr "Retrieved user details for alice");
                     ("data", JObj [("user", JStr "alice");
                                    ("domain", JStr "example.com");
                                    ("email", JStr "a@example.com")]);
                     ("error", JUndefined)]).
Proof. reflexivity. Qed.

Example search_users_john :
  exists d,
    fst (callTool "search_users" (Some [("query", JStr "john")])
           (fun _ => Resolved (JArr [JObj [("user", JStr "john")];
                                     JObj [("user", JStr "johnny")];
                                     JObj [("user", JStr "john.doe")]]))
           emptyWorld)
    = Returned (reply [("success", JBool true);
                       ("message",
                        JStr ("Found 3 users matching " ++ dquote ++ "john" ++ dquote));
                       ("data", d);
                       ("error", JUndefined)]).
Proof. eexists. reflexivity. Qed.

(** The one call that ends in an internal error after its request was
    answered: a query that cannot be converted to a string. *)
Example search_users_unprintable_query :
  callTool "search_users" (Some [("query", JObj [("toString", JNum 1)])])
    (fun _ => Resolved (JArr [])) emptyWorld
  = (Threw (ThrowMcp (mkMcpError InternalError
                        "Error executing tool search_users: TypeError: Cannot convert object to primitive value")),
     mkWorld [mkRequest GET "/domains/~/users/~"
                [("user", JObj [("toString", JNum 1)]); ("limit", JNum 20)]] []).
Proof. reflexivity. Qed.

(** ** The catalogue *)

Lemma NoDup_toolNames : NoDup toolNames.
Proof.
  rewrite toolNames_eq.
  repeat (constructor; [cbn [In]; intuition discriminate|]).
  constructor.
Qed.

(** C6.  [listTools] returns the same value on every call, whatever the
    transport and the state, and leaves the state alone: the catalogue,
    an ordered sequence of 23 descriptors.  Their names are the 23 names
    of the operation table, each carried by exactly one descriptor, and
    the required-field list of every descriptor is the one of the table
    ([query] for [search_users]; [domain], [queueId], [agentId] for
    [login_agent]; none for [get_cdr_records], [get_domains] and
    [test_connection]). *)
Theorem listTools_is_the_catalog :
  (forall (t : Transport) (w : World),
      listTools t w = (Returned (JObj [("tools", JArr catalog)]), w))
  /\ (forall (t1 t2 : Transport) (w1 w2 : World),
         fst (listTools t1 w1) = fst (listTools t2 w2))
  /\ List.length catalog = 23
  /\ map (fun tool => (toolName tool, requiredFields tool)) catalog
     = spec_required_table
  /\ NoDup (map toolName catalog)
  /\ (forall name, In name (map fst spec_required_table) ->
      List.length (descriptorsNamed name) = 1)
  /\ (forall tool, In tool catalog ->
      In (toolName tool) (map fst spec_required_table)).
Proof.
  split; [reflexivity|]. split; [reflexivity|]. split; [reflexivity|].
  split; [reflexivity|]. split; [exact NoDup_toolNames|]. split.
  - intros name Hn. cbn [map fst spec_required_table In] in Hn.
    repeat (destruct Hn as [<-|Hn]; [reflexivity|]). contradiction Hn.
  - intros tool Ht. apply (in_map toolName) in Ht. exact Ht.
Qed.

(** ** Call detail records *)

(** C7.  Every request [get_cdr_records] issues is a GET whose path is
    chosen by scope: the CDR endpoint of the user when both [user] and
    [domain] are given, the CDR endpoint of the domain when only [domain]
    is given, and the global [/cdrs] otherwise; its query parameters are
    always [start_time] (the [startDate] argument), [end_time] (the
    [endDate] argument) and [limit], which is 100 when no limit is given.
    The call issues one request at most, and it issues one whenever the
    domain and the user convert to strings, as every string and every
    number does; it always returns a reply. *)
Theorem cdr_endpoint_by_scope :
  forall (o : JsObject) (t : Transport) (w : World),
  exists body w',
    callTool "get_cdr_records" (Some o) t w = (Returned body, w')
    /\ (forall req,
           issued w' = (issued w ++ [req])%list ->
           method req = GET
           /\ params req
              = [("start_time", getProp "startDate" o);
                 ("end_time", getProp "endDate" o);
                 ("limit", if truthy (getProp "limit" o)
                           then getProp "limit" o else JNum 100)]
           /\ (truthy (getProp "user" o) = true ->
               truthy (getProp "domain" o) = true ->
               exists d u,
                 ToString (getProp "domain" o) = Some d
                 /\ ToString (getProp "user" o) = Some u
                 /\ url req = "/domains/" ++ d ++ "/users/" ++ u ++ "/cdrs")
           /\ (truthy (getProp "user" o) = false ->
               truthy (getProp "domain" o) = true ->
               exists d,
                 ToString (getProp "domain" o) = Some d
                 /\ url req = "/domains/" ++ d ++ "/cdrs")
           /\ (truthy (getProp "domain" o) = false -> url req = "/cdrs"))
    /\ (issued w' = issued w \/ exists req, issued w' = (issued w ++ [req])%list)
    /\ (printable (getProp "domain" o) = true ->
        printable (getProp "user" o) = true ->
        exists req, issued w' = (issued w ++ [req])%list)
    /\ (forall s, printable (JStr s) = true)
    /\ (forall n, printable (JNum n) = true).
Proof.
  intros o t w. rewrite get_cdr_records_run.
  unfold cdrOutcome, cdrEndpoint, printable. cbv zeta.
  destruct (truthy (getProp "user" o)) eqn:Eu;
    destruct (truthy (getProp "domain" o)) eqn:Ed; cbn [andb];
    destruct (ToString (getProp "domain" o)) as [d|] eqn:Sd;
    destruct (ToString (getProp "user" o)) as [u|] eqn:Su;
    try falsy_converts.
  all: eexists; eexists; (split; [reflexivity|]).
  all: rewrite ?issued_after.
  all: split;
    [ intros req Hi;
      first [ apply one_more_request in Hi; subst req;
              cbn [method params url cdrParams];
              repeat split; intros; try discriminate; eauto
            | exfalso; exact (no_request_is_not_one _ _ Hi) ]
    | split; [ first [ left; reflexivity | right; eexists; reflexivity ] | ] ].
  all: split; [ intros; try discriminate; eexists; reflexivity | split; reflexivity ].
Qed.

Example cdr_user_scope :
  issued (snd (callTool "get_cdr_records"
                 (Some [("user", JStr "alice"); ("domain", JStr "example.com");
                        ("startDate", JStr "2024-01-01")])
                 (fun _ => Resolved (JArr [])) emptyWorld))
  = [mkRequest GET "/domains/example.com/users/alice/cdrs"
       [("start_time", JStr "2024-01-01"); ("end_time", JUndefined);
        ("limit", JNum 100)]].
Proof. reflexivity. Qed.

(** C9.  When [get_cdr_records] is called with a user and without a
    domain (absent, or falsy), the one request it issues is the GET of
    the global [/cdrs] with the parameters [start_time], [end_time] and
    [limit]: the user is neither in the path nor among the parameters,
    the call is answered with an ordinary reply, and it is the same call,
    reply and request alike, whatever the user is. *)
Theorem cdr_user_without_domain_is_ignored :
  forall (o : JsObject) (t : Transport) (w : World),
    truthy (getProp "user" o) = true ->
    truthy (getProp "domain" o) = false ->
    exists env w',
      callTool "get_cdr_records" (Some o) t w = (Returned (reply env), w')
      /\ issued w'
         = (issued w
            ++ [mkRequest GET "/cdrs"
                  [("start_time", getProp "startDate" o);
                   ("end_time", getProp "endDate" o);
                   ("limit", if truthy (getProp "limit" o)
                             then getProp "limit" o else JNum 100)]])%list
      /\ forall other,
          callTool "get_cdr_records" (Some (("user", other) :: o)) t w
          = callTool "get_cdr_records" (Some o) t w.
Proof.
  intros o t w Hu Hd.
  assert (Hpath : forall user,
             cdrEndpoint (("user", user) :: o) = Some "/cdrs").
  { intros user. unfold cdrEndpoint.
    cbn [getProp String.eqb Ascii.eqb Bool.eqb]. cbv zeta.
    rewrite Hd, andb_false_r. reflexivity. }
  assert (Hpath0 : cdrEndpoint o = Some "/cdrs").
  { unfold cdrEndpoint. cbv zeta. rewrite Hd, andb_false_r. reflexivity. }
  rewrite get_cdr_records_run. unfold cdrOutcome. rewrite Hpath0. cbv zeta.
  eexists. eexists. split; [reflexivity|]. split.
  - rewrite issued_after. reflexivity.
  - intros other. rewrite get_cdr_records_run. unfold cdrOutcome.
    rewrite Hpath. reflexivity.
Qed.

Lemma cdr_user_without_domain_is_ignored_witness :
  exists env w',
    callTool "get_cdr_records" (Some [("user", JStr "alice")])
      (fun _ => Resolved (JArr [])) emptyWorld
    = (Returned (reply env), w')
    /\ issued w'
       = (issued emptyWorld
          ++ [mkRequest GET "/cdrs"
                [("start_time", getProp "startDate" [("user", JStr "alice")]);
                 ("end_time", getProp "endDate" [("user", JStr "alice")]);
                 ("limit", if truthy (getProp "limit" [("user", JStr "alice")])
                           then getProp "limit" [("user", JStr "alice")]
                           else JNum 100)]])%list
    /\ forall other,
        callTool "get_cdr_records"
          (Some (("user", other) :: [("user", JStr "alice")]))
          (fun _ => Resolved (JArr [])) emptyWorld
        = callTool "get_cdr_records" (Some [("user", JStr "alice")])
            (fun _ => Resolved (JArr [])) emptyWorld.
Proof.
  apply (cdr_user_without_domain_is_ignored [("user", JStr "alice")]
           (fun _ => Resolved (JArr [])) emptyWorld); reflexivity.
Defined.

Example cdr_user_only :
  issued (snd (callTool "get_cdr_records" (Some [("user", JStr "alice")])
                 (fun _ => Resolved (JArr [])) emptyWorld))
  = [mkRequest GET "/cdrs"
       [("start_time", JUndefined); ("end_time", JUndefined); ("limit", JNum 100)]].
Proof. reflexivity. Qed.

(** ** What the serialization leaves out *)

(** A result of the gateway is a success without an error, or a failure
    with the text of its cause and the empty value of its kind. *)
Lemma result_shape (c : GatewayCall) (r : NetSapiensApiResponse) t w w' :
  invoke c t w = (Returned r, w') ->
  (success r = true /\ error r = JUndefined)
  \/ (success r = false
      /\ (exists cause, error r = JStr cause)
      /\ data r = emptyValue (kindOf c)).
Proof.
  intros Hrun.
  destruct (invoke_run c t w)
    as (r0 & w0 & Hrun0 & [(_ & req & -> & _) | (_ & -> & _)]);
    rewrite Hrun in Hrun0; injection Hrun0 as -> _.
  - destruct (t req);
      [ left; split; reflexivity
      | right; split; [reflexivity|]; split; [eexists; reflexivity | reflexivity] ].
  - right. split; [reflexivity|]. split; [eexists; reflexivity | reflexivity].
Qed.

(** C10.  [JSON.stringify] leaves out the properties whose value is
    [undefined], so the text of a reply is the serialization of the
    defined properties of its envelope: whenever the required parameters
    are present, the reply of [callTool] is that text for the result of
    the gateway (the one call without a reply is [search_users] on a
    successful result with a [query] that cannot be converted to a
    string).  For every tool, on success the [error] key is not among the
    defined properties.  For a failed single-entity operation neither is
    the [data] key: the text has the three members [success], [message]
    and [error].  For a failed list operation the text has the member
    [data] with the empty array as its value. *)
Theorem undefined_properties_are_dropped :
  forall (name : string) (o : JsObject) (t : Transport) (w : World),
    In name toolNames ->
    validated name o = true ->
    exists c r w' msg,
      delegate name o = Some c
      /\ invoke c t w = (Returned r, w')
      /\ let env := if String.eqb name "test_connection"
                    then envelopeWithoutData r msg
                    else envelope r msg in
         (callTool name (Some o) t w = (Returned (reply (definedProps env)), w')
          \/ (name = "search_users"
              /\ success r = true
              /\ ToString (getProp "query" o) = None
              /\ callTool name (Some o) t w
                 = (Threw (ThrowMcp (mkMcpError InternalError msg)), w')))
         /\ (success r = true ->
             ~ In "error" (keys (definedProps env))
             /\ exists rest,
                 (rest = []
                  \/ exists s, SerializeJSONProperty gap (data r) = Some s
                               /\ rest = [member "data" s])
                 /\ reply (definedProps env)
                    = textReply
                        (objectText
                           (member "success" "true"
                            :: member "message" (QuoteJSONString msg)
                            :: rest)))
         /\ (success r = false -> kindOf c = SingleEntity ->
             ~ In "data" (keys (definedProps env))
             /\ exists cause,
                 callTool name (Some o) t w
                 = (Returned
                      (textReply
                         (objectText
                            [member "success" "false";
                             member "message" (QuoteJSONString msg);
                             member "error" (QuoteJSONString cause)])),
                    w'))
         /\ (success r = false -> kindOf c = ListOf ->
             In "data" (keys (definedProps env))
             /\ exists cause,
                 callTool name (Some o) t w
                 = (Returned
                      (textReply
                         (objectText
                            [member "success" "false";
                             member "message" (QuoteJSONString msg);
                             member "data" "[]";
                             member "error" (QuoteJSONString cause)])),
                    w')).
Proof.
  intros name o t w Hn Hv.
  destruct (delegate_total name o Hn) as [c Hc].
  destruct (callTool_spec name o c t w Hc Hv) as (r & w' & msg & Hrun & Hcall).
  exists c, r, w', msg. split; [exact Hc|]. split; [exact Hrun|]. cbv zeta.
  assert (Hlist : kindOf c = ListOf -> String.eqb name "test_connection" = false).
  { intros Hk. destruct (String.eqb_spec name "test_connection") as [->|]; [|reflexivity].
    injection Hc as <-. discriminate Hk. }
  assert (Hsingle : kindOf c = SingleEntity -> String.eqb name "test_connection" = false).
  { intros Hk. destruct (String.eqb_spec name "test_connection") as [->|]; [|reflexivity].
    injection Hc as <-. discriminate Hk. }
  split; [|split; [|split]].
  - destruct Hcall as [Hcall | Hcall]; [left | right; exact Hcall].
    rewrite Hcall, <- reply_definedProps. reflexivity.
  - intros Hs.
    destruct (result_shape c r t w w' Hrun) as [(_ & He) | (Hf & _)];
      [|rewrite Hs in Hf; discriminate Hf].
    split.
    + destruct (String.eqb name "test_connection");
        unfold definedProps, envelope, envelopeWithoutData;
        cbn [filter snd isUndefined negb]; rewrite He;
        cbn [isUndefined negb];
        try destruct (negb (isUndefined _));
        cbn [keys map fst In]; intuition discriminate.
    + destruct (String.eqb name "test_connection").
      * exists []. split; [left; reflexivity|].
        unfold reply, definedProps, envelopeWithoutData, JSON_stringify.
        cbn [filter snd isUndefined negb]. rewrite He, Hs. reflexivity.
      * rewrite <- reply_definedProps. unfold reply, envelope, JSON_stringify.
        rewrite He, Hs.
        cbn [SerializeJSONProperty flat_map snd fst append].
        destruct (SerializeJSONProperty gap (data r)) as [s|] eqn:E.
        -- exists [member "data" s].
           split; [right; exists s; split; reflexivity | reflexivity].
        -- exists []. split; [left; reflexivity | reflexivity].
  - intros Hs Hk.
    destruct (result_shape c r t w w' Hrun) as [(Hf & _) | (_ & (cause & He) & Hd)];
      [rewrite Hs in Hf; discriminate Hf|].
    rewrite (Hsingle Hk). rewrite Hk in Hd. cbn [emptyValue] in Hd.
    split.
    + unfold definedProps, envelope. cbn [filter snd isUndefined negb].
      rewrite Hd, He. cbn; intuition discriminate.
    + exists cause.
      destruct Hcall as [Hcall | (_ & Hok & _)];
        [|rewrite Hok in Hs; discriminate Hs].
      rewrite Hcall, (Hsingle Hk). unfold reply, envelope.
      rewrite Hs, Hd, He. reflexivity.
  - intros Hs Hk.
    destruct (result_shape c r t w w' Hrun) as [(Hf & _) | (_ & (cause & He) & Hd)];
      [rewrite Hs in Hf; discriminate Hf|].
    rewrite (Hlist Hk). rewrite Hk in Hd. cbn [emptyValue] in Hd.
    split.
    + unfold definedProps, envelope. cbn [filter snd isUndefined negb].
      rewrite Hd. cbn; tauto.
    + exists cause.
      destruct Hcall as [Hcall | (_ & Hok & _)];
        [|rewrite Hok in Hs; discriminate Hs].
      rewrite Hcall, (Hlist Hk). unfold reply, envelope.
      rewrite Hs, Hd, He. reflexivity.
Qed.

Lemma undefined_properties_are_dropped_witness :
  exists c r w' msg,
    delegate "get_user" [("userId", JStr "alice"); ("domain", JStr "example.com")] = Some c
    /\ let t := fun _ : Request => Rejected (mkAxiosError (Some "Network Error") None) in
       let o := [("userId", JStr "alice"); ("domain", JStr "example.com")] in
       invoke c t emptyWorld = (Returned r, w')
       /\ let env := if String.eqb "get_user" "test_connection"
                     then envelopeWithoutData r msg
                     else envelope r msg in
          (callTool "get_user" (Some o) t emptyWorld
           = (Returned (reply (definedProps env)), w')
           \/ ("get_user" = "search_users"
               /\ success r = true
               /\ ToString (getProp "query" o) = None
               /\ callTool "get_user" (Some o) t emptyWorld
                  = (Threw (ThrowMcp (mkMcpError InternalError msg)), w')))
          /\ (success r = true ->
              ~ In "error" (keys (definedProps env))
              /\ exists rest,
                  (rest = []
                   \/ exists s, SerializeJSONProperty gap (data r) = Some s
                                /\ rest = [member "data" s])
                  /\ reply (definedProps env)
                     = textReply
                         (objectText
                            (member "success" "true"
                             :: member "message" (QuoteJSONString msg)
                             :: rest)))
          /\ (success r = false -> kindOf c = SingleEntity ->
              ~ In "data" (keys (definedProps env))
              /\ exists cause,
                  callTool "get_user" (Some o) t emptyWorld
                  = (Returned
                       (textReply
                          (objectText
                             [member "success" "false";
                              member "message" (QuoteJSONString msg);
                              member "error" (QuoteJSONString cause)])),
                     w'))
          /\ (success r = false -> kindOf c = ListOf ->
              In "data" (keys (definedProps env))
              /\ exists cause,
                  callTool "get_user" (Some o) t emptyWorld
                  = (Returned
                       (textReply
                          (objectText
                             [member "success" "false";
                              member "message" (QuoteJSONString msg);
                              member "data" "[]";
                              member "error" (QuoteJSONString cause)])),
                     w')).
Proof.
  refine (undefined_properties_are_dropped "get_user"
            [("userId", JStr "alice"); ("domain", JStr "example.com")]
            (fun _ => Rejected (mkAxiosError (Some "Network Error") None))
            emptyWorld _ _).
  - cbn; tauto.
  - reflexivity.
Defined.

(** The three shapes of a body, as texts. *)
Example body_of_a_success :
  callTool "get_domain" (Some [("domain", JStr "example.com")])
    (fun _ => Resolved (JObj [("domain", JStr "example.com")])) emptyWorld
  = (Returned
       (textReply
          (objectText
             [member "success" "true";
              member "message"
                (QuoteJSONString "Retrieved domain information for example.com");
              member "data"
                ("{" ++ newline ++ "    "
                 ++ member "domain" (QuoteJSONString "example.com")
                 ++ newline ++ "  }")])),
     mkWorld [mkRequest GET "/domains/example.com" []] []).
Proof. reflexivity. Qed.

Example body_of_a_failed_single_entity :
  fst (callTool "get_billing" (Some [("domain", JStr "example.com")])
         (fun _ => Rejected (mkAxiosError (Some "timeout of 30000ms exceeded") None))
         emptyWorld)
  = Returned
      (textReply
         (objectText
            [member "success" "false";
             member "message"
               (QuoteJSONString
                  "Failed to get billing information: timeout of 30000ms exceeded");
             member "error" (QuoteJSONString "timeout of 30000ms exceeded")])).
Proof. reflexivity. Qed.

Example body_of_a_failed_list :
  fst (callTool "get_agents" (Some [("domain", JStr "example.com")])
         (fun _ => Rejected (mkAxiosError None None)) emptyWorld)
  = Returned
      (textReply
         (objectText
            [member "success" "false";
             member "message" (QuoteJSONString "Failed to get agents: Failed to get agents");
             member "data" "[]";
             member "error" (QuoteJSONString "Failed to get agents")])).
Proof. reflexivity. Qed.

(** * Further properties of the gateway *)

(** X1.  A single-entity method hands the body of a 2xx answer to the
    request it issued through unchanged, whatever its shape: an array is
    not unwrapped, a bare value is not wrapped, and no error is set.  The
    method issues its request whenever the arguments it puts in the
    endpoint convert to strings. *)
Theorem single_entity_body_is_verbatim :
  forall (c : GatewayCall) (t : Transport) (w : World),
    kindOf c = SingleEntity ->
    exists r w',
      invoke c t w = (Returned r, w')
      /\ (forall req d,
             issued w' = (issued w ++ [req])%list ->
             t req = Resolved d ->
             success r = true /\ data r = d /\ error r = JUndefined)
      /\ (forallb printable (pathArguments c) = true ->
          exists req, issued w' = (issued w ++ [req])%list).
Proof.
  intros c t w Hk.
  destruct (invoke_run c t w)
    as (r & w' & Hrun & [(Hp & req0 & -> & ->) | (Hp & -> & ->)]);
    eexists; eexists; (split; [exact Hrun|]); split.
  - intros req d Hi Hd. rewrite issued_after in Hi.
    apply one_more_request in Hi. subst req0. rewrite Hd.
    cbn [resultOf success data error]. rewrite Hk. repeat split.
  - intros _. exists req0. apply issued_after.
  - intros req d Hi. exfalso. exact (no_request_is_not_one _ _ Hi).
  - rewrite Hp. discriminate.
Qed.

Lemma single_entity_body_is_verbatim_witness :
  kindOf (GetUser (JStr "alice") (JStr "example.com")) = SingleEntity
  /\ exists r w',
      invoke (GetUser (JStr "alice") (JStr "example.com"))
        (fun _ => Resolved (JArr [JNum 1; JNum 2])) emptyWorld
      = (Returned r, w')
      /\ (forall req d,
             issued w' = (issued emptyWorld ++ [req])%list ->
             (fun _ : Request => Resolved (JArr [JNum 1; JNum 2])) req = Resolved d ->
             success r = true /\ data r = d /\ error r = JUndefined)
      /\ (forallb printable (pathArguments (GetUser (JStr "alice") (JStr "example.com")))
          = true ->
          exists req, issued w' = (issued emptyWorld ++ [req])%list).
Proof.
  split; [reflexivity|].
  apply (single_entity_body_is_verbatim (GetUser (JStr "alice") (JStr "example.com"))
           (fun _ => Resolved (JArr [JNum 1; JNum 2])) emptyWorld).
  reflexivity.
Defined.

(** The request recorded last by a state that a computation left. *)
Ltac same_request H :=
  unfold interceptor in H; cbn [issued] in H;
  first [ apply one_more_request in H; subst
        | exfalso; exact (no_request_is_not_one _ _ H) ].

(** X2.  Every request of the gateway is a GET, but for two methods:
    [loginAgent] and [logoutAgent] issue a POST, to the [login] and
    [logout] paths of the agent in the queue, made of the domain, the
    queue and the agent as they convert to strings, and a POST carries no
    parameters.  A method issues its request whenever the arguments it
    puts in the endpoint convert to strings. *)
Theorem post_only_for_agent_sessions :
  forall (c : GatewayCall) (t : Transport) (w : World),
  exists r w',
    invoke c t w = (Returned r, w')
    /\ (forallb printable (pathArguments c) = true ->
        exists req, issued w' = (issued w ++ [req])%list)
    /\ forall req,
         issued w' = (issued w ++ [req])%list ->
         method req = match c with
                      | LoginAgent _ _ _ | LogoutAgent _ _ _ => POST
                      | _ => GET
                      end
         /\ match c with
            | LoginAgent domain queueId agentId =>
                exists d q a,
                  ToString domain = Some d /\ ToString queueId = Some q
                  /\ ToString agentId = Some a
                  /\ req = mkRequest POST
                             ("/domains/" ++ d ++ "/callqueues/" ++ q
                              ++ "/agents/" ++ a ++ "/login") []
            | LogoutAgent domain queueId agentId =>
                exists d q a,
                  ToString domain = Some d /\ ToString queueId = Some q
                  /\ ToString agentId = Some a
                  /\ req = mkRequest POST
                             ("/domains/" ++ d ++ "/callqueues/" ++ q
                              ++ "/agents/" ++ a ++ "/logout") []
            | _ => True
            end.
Proof.
  intros c t w.
  destruct c; cbn [invoke pathArguments]; unfold_gateway; step_tool.
  all: split_truthy; split_strings; try falsy_converts.
  all: try destruct_answer t.
  all: eexists; eexists; (split; [reflexivity|]).
  all: split;
    [ intros Hp; first [ discriminate Hp | eexists; reflexivity ] | ].
  all: intros req Hi; same_request Hi.
  all: (split; [reflexivity|]).
  all: try exact I.
  all: eexists; eexists; eexists; repeat split.
Qed.

Example loginAgent_posts :
  loginAgent (JStr "example.com") (JStr "sales") (JNum 1001)
    (fun _ => Resolved JNull) emptyWorld
  = (Returned (mkApiResponse true JNull JUndefined (JStr "Agent logged in successfully")),
     mkWorld [mkRequest POST "/domains/example.com/callqueues/sales/agents/1001/login" []]
       []).
Proof. reflexivity. Qed.

(** X3.  The response interceptor writes one entry to [console.error]
    for a rejected request and none for an answered one, and a method
    that issues no request logs nothing.  The entry holds the url of the
    request and the status, status text and body of the response, each
    [undefined] when the platform did not answer. *)
Theorem rejections_are_logged_once :
  forall (c : GatewayCall) (t : Transport) (w : World),
  exists r w',
    invoke c t w = (Returned r, w')
    /\ (issued w' = issued w -> console w' = console w)
    /\ (forallb printable (pathArguments c) = true ->
        exists req, issued w' = (issued w ++ [req])%list)
    /\ forall req,
         issued w' = (issued w ++ [req])%list ->
         (forall d, t req = Resolved d -> console w' = console w)
         /\ (forall e, t req = Rejected e ->
             console w'
             = (console w
                ++ [("NetSapiens API Error:",
                     JObj [("status",
                            match response e with
                            | Some answer => JNum (status answer)
                            | None => JUndefined
                            end);
                           ("statusText",
                            match response e with
                            | Some answer => JStr (statusText answer)
                            | None => JUndefined
                            end);
                           ("data",
                            match response e with
                            | Some answer => body answer
                            | None => JUndefined
                            end);
                           ("url", JStr (url req))])])%list).
Proof.
  intros c t w.
  destruct (invoke_run c t w)
    as (r & w' & Hrun & [(Hp & req0 & -> & ->) | (Hp & -> & ->)]);
    eexists; eexists; (split; [exact Hrun|]); (split; [|split]).
  - intros Hi. rewrite issued_after in Hi.
    exfalso. symmetry in Hi. exact (no_request_is_not_one _ _ Hi).
  - intros _. exists req0. apply issued_after.
  - intros req Hi. rewrite issued_after in Hi.
    apply one_more_request in Hi. subst req0.
    split; intros x Hx; rewrite Hx; reflexivity.
  - reflexivity.
  - rewrite Hp. discriminate.
  - intros req Hi. exfalso. exact (no_request_is_not_one _ _ Hi).
Qed.

(** * Further properties of the dispatcher *)

Ltac split_answers t1 t2 H :=
  match goal with
  | |- context [t1 ?r] =>
      specialize (H r); destruct (t1 r), (t2 r);
      cbn [sameAnswer] in H; try contradiction
  end.

Lemma messageText_ext (e1 e2 : AxiosError) :
  axios_message e1 = axios_message e2 -> messageText e1 = messageText e2.
Proof. unfold messageText. intros ->. reflexivity. Qed.

(** X4.  What a tool call returns depends on the answers of the platform
    only through the body of a 2xx answer and the message of a
    rejection: the status, the status text and the body of a failed
    response are logged and never reach the caller. *)
Theorem reply_ignores_response_details :
  forall (name : string) (args : option JsObject) (t1 t2 : Transport) (w : World),
    (forall req, sameAnswer (t1 req) (t2 req)) ->
    fst (callTool name args t1 w) = fst (callTool name args t2 w).
Proof.
  intros name args t1 t2 w Hsame.
  destruct (in_dec string_dec name toolNames) as [Hn|Hn];
    [|rewrite !callTool_unknown by assumption; reflexivity].
  by_name Hn.
  all: destruct args as [o|]; run_tool; try reflexivity.
  all: split_truthy; split_strings; try falsy_converts; try reflexivity.
  all: split_answers t1 t2 Hsame.
  all: subst; step_tool; cbn [success data error message messageOf];
    rewrite ?orElse_message, ?(messageText_ext _ _ Hsame);
    settle_result; reflexivity.
Qed.

Lemma reply_ignores_response_details_witness :
  fst (callTool "get_user"
         (Some [("userId", JStr "alice"); ("domain", JStr "example.com")])
         (fun _ => Rejected (mkAxiosError (Some "Request failed")
                               (Some (mkErrorResponse 404 "Not Found" (JStr "no such user")))))
         emptyWorld)
  = fst (callTool "get_user"
           (Some [("userId", JStr "alice"); ("domain", JStr "example.com")])
           (fun _ => Rejected (mkAxiosError (Some "Request failed")
                                 (Some (mkErrorResponse 500 "Internal Server Error" JNull))))
           emptyWorld).
Proof.
  apply reply_ignores_response_details. intros req. reflexivity.
Defined.

(** X5.  Once its query is there, [search_users] issues one GET: of the
    users of the domain when a domain is given, the domain being put in
    the path as it converts to a string, and of the cross-domain
    [/domains/~/users/~] when it is absent or falsy (the empty string
    included).  The query travels as the parameter [user].  The parameter
    [limit] is 20 only when no limit is passed: a limit that is passed is
    sent as it is, [0] and [null] included.  The call returns a reply
    when the query converts to a string as well. *)
Theorem search_users_request :
  forall (o : JsObject) (d : string) (t : Transport) (w : World),
    truthy (getProp "query" o) = true ->
    ToString (getProp "domain" o) = Some d ->
    exists out w',
      callTool "search_users" (Some o) t w = (out, w')
      /\ issued w'
         = (issued w
            ++ [mkRequest GET
                  (if truthy (getProp "domain" o)
                   then "/domains/" ++ d ++ "/users"
                   else "/domains/~/users/~")
                  [("user", getProp "query" o);
                   ("limit", withDefault (getProp "limit" o) (JNum 20))]])%list
      /\ (printable (getProp "query" o) = true ->
          exists env, out = Returned (reply env)).
Proof.
  intros o d t w Hq Hd.
  pose proof (search_users_issued o d t w Hq Hd) as Hi.
  assert (Hv : validated "search_users" o = true)
    by (cbn; rewrite Hq; reflexivity).
  destruct (callTool_spec "search_users" o _ t w eq_refl Hv)
    as (r & w' & msg & _ & [Hcall | (_ & _ & Hn & Hcall)]);
    rewrite Hcall in Hi |- *; cbn [snd] in Hi;
    eexists; eexists; (split; [reflexivity|]); (split; [exact Hi|]).
  - intros _. eexists. reflexivity.
  - unfold printable. rewrite Hn. discriminate.
Qed.

Lemma search_users_request_witness :
  exists out w',
    callTool "search_users"
      (Some [("query", JStr "john"); ("domain", JStr EmptyString); ("limit", JNum 0)])
      (fun _ => Resolved (JArr [])) emptyWorld
    = (out, w')
    /\ issued w'
       = (issued emptyWorld
          ++ [mkRequest GET
                (if truthy (getProp "domain"
                              [("query", JStr "john"); ("domain", JStr EmptyString);
                               ("limit", JNum 0)])
                 then "/domains/" ++ EmptyString ++ "/users"
                 else "/domains/~/users/~")
                [("user", getProp "query"
                            [("query", JStr "john"); ("domain", JStr EmptyString);
                             ("limit", JNum 0)]);
                 ("limit",
                  withDefault
                    (getProp "limit"
                       [("query", JStr "john"); ("domain", JStr EmptyString);
                        ("limit", JNum 0)])
                    (JNum 20))]])%list
    /\ (printable (getProp "query"
                     [("query", JStr "john"); ("domain", JStr EmptyString);
                      ("limit", JNum 0)]) = true ->
        exists env, out = Returned (reply env)).
Proof.
  apply (search_users_request
           [("query", JStr "john"); ("domain", JStr EmptyString); ("limit", JNum 0)]
           EmptyString (fun _ => Resolved (JArr [])) emptyWorld); reflexivity.
Defined.

Example search_users_zero_limit :
  issued (snd (callTool "search_users"
                 (Some [("query", JStr "john"); ("domain", JStr EmptyString); ("limit", JNum 0)])
                 (fun _ => Resolved (JArr [])) emptyWorld))
  = [mkRequest GET "/domains/~/users/~" [("user", JStr "john"); ("limit", JNum 0)]].
Proof. reflexivity. Qed.

(** A number is put in the path as it prints: [1e+21] for ten to the
    power of 21. *)
Example search_users_large_domain :
  issued (snd (callTool "search_users"
                 (Some [("query", JStr "john"); ("domain", JNumber "1e+21")])
                 (fun _ => Resolved (JArr [])) emptyWorld))
  = [mkRequest GET "/domains/1e+21/users" [("user", JStr "john"); ("limit", JNum 20)]].
Proof. reflexivity. Qed.

(** X6.  Once its domain is there, [get_agent_statistics] issues one GET
    without parameters: of the statistics of the agent when an agent is
    given, and of the statistics of all agents of the domain when it is
    absent or falsy; the domain and the agent are put in the path as they
    convert to strings, and the call returns a reply. *)
Theorem agent_statistics_request :
  forall (o : JsObject) (d a : string) (t : Transport) (w : World),
    truthy (getProp "domain" o) = true ->
    ToString (getProp "domain" o) = Some d ->
    ToString (getProp "agentId" o) = Some a ->
    exists env w',
      callTool "get_agent_statistics" (Some o) t w = (Returned (reply env), w')
      /\ issued w'
         = (issued w
            ++ [mkRequest GET
                  (if truthy (getProp "agentId" o)
                   then "/domains/" ++ d ++ "/statistics/agent/" ++ a
                   else "/domains/" ++ d ++ "/statistics/agent")
                  []])%list.
Proof.
  intros o d a t w Ht Hd Ha. run_tool. rewrite Ht, Hd, Ha. step_tool.
  split_truthy; rewrite ?Hd, ?Ha; step_tool; destruct_answer t; settle_result;
    rewrite ?Hd, ?Ha; step_tool;
    eexists; eexists; (split; [reflexivity|]); reflexivity.
Qed.

Lemma agent_statistics_request_witness :
  exists env w',
    callTool "get_agent_statistics" (Some [("domain", JStr "example.com")])
      (fun _ => Resolved (JObj [])) emptyWorld
    = (Returned (reply env), w')
    /\ issued w'
       = (issued emptyWorld
          ++ [mkRequest GET
                (if truthy (getProp "agentId" [("domain", JStr "example.com")])
                 then "/domains/" ++ "example.com" ++ "/statistics/agent/" ++ "undefined"
                 else "/domains/" ++ "example.com" ++ "/statistics/agent")
                []])%list.
Proof.
  apply (agent_statistics_request [("domain", JStr "example.com")]
           "example.com" "undefined"
           (fun _ => Resolved (JObj [])) emptyWorld); reflexivity.
Defined.

Lemma validated_spec (name : string) (o : JsObject) :
  validated name o = false
  <-> exists field, In field (requiredOf name) /\ truthy (getProp field o) = false.
Proof.
  unfold validated. split.
  - intros H. induction (requiredOf name) as [|f l IH]; [discriminate H|].
    cbn [forallb] in H. destruct (truthy (getProp f o)) eqn:E.
    + destruct (IH H) as (g & Hg & Hf). exists g. split; [right; exact Hg | exact Hf].
    + exists f. split; [left; reflexivity | exact E].
  - intros (f & Hin & Hf). apply (validated_false name o f Hin Hf).
Qed.

(** X7.  The schema a client reads and the validation a call meets
    agree: with an argument map, a tool of the catalogue answers with the
    invalid-parameters error exactly when some parameter its descriptor
    lists as required is absent or falsy. *)
Theorem schema_agrees_with_validation :
  forall (name : string) (o : JsObject) (t : Transport) (w : World),
    In name toolNames ->
    ((exists msg w',
         callTool name (Some o) t w
         = (Threw (ThrowMcp (mkMcpError InvalidParams msg)), w'))
     <-> exists field,
           In field (requiredOf name) /\ truthy (getProp field o) = false).
Proof.
  intros name o t w Hn. rewrite <- validated_spec. split.
  - intros (msg & w' & Hcall).
    destruct (validated name o) eqn:Hv; [|reflexivity].
    destruct (delegate_total name o Hn) as [c Hc].
    destruct (callTool_spec name o c t w Hc Hv)
      as (r & w0 & m & _ & [Hret | (_ & _ & _ & Hret)]);
      rewrite Hret in Hcall; discriminate Hcall.
  - intros Hv.
    destruct (callTool_rejects_missing name o t w Hn Hv) as (msg & Hcall & _).
    exists msg, w. exact Hcall.
Qed.

Lemma schema_agrees_with_validation_witness :
  (exists msg w',
      callTool "get_phone_number" (Some [("domain", JStr "example.com")])
        (fun _ => Resolved JNull) emptyWorld
      = (Threw (ThrowMcp (mkMcpError InvalidParams msg)), w'))
  <-> exists field,
        In field (requiredOf "get_phone_number")
        /\ truthy (getProp field [("domain", JStr "example.com")]) = false.
Proof.
  apply (schema_agrees_with_validation "get_phone_number"
           [("domain", JStr "example.com")] (fun _ => Resolved JNull) emptyWorld).
  cbn; tauto.
Defined.

Lemma call_without_arguments_lemma (name : string) t w :
  In name toolNames ->
  (name = "get_domains" \/ name = "test_connection" ->
   forall o, callTool name None t w = callTool name (Some o) t w)
  /\ (name <> "get_domains" -> name <> "test_connection" ->
      exists detail,
        callTool name None t w
        = (Threw (ThrowMcp (mkMcpError InternalError
                              ("Error executing tool " ++ name ++ ": " ++ detail))),
           w)).
Proof.
  intros Hn. by_name Hn.
  all: split;
    [ intros [H|H]; try discriminate H; intros o; reflexivity
    | intros H1 H2; try (exfalso; apply H1; reflexivity);
      try (exfalso; apply H2; reflexivity); eexists; reflexivity ].
Qed.



(** The [message] the SDK gives that error. *)
Example message_of_the_internal_error :
  McpError_message
    (mkMcpError InternalError
       "Error executing tool get_user: TypeError: Cannot destructure property 'userId' of 'args' as it is undefined.")
  = "MCP error -32603: Error executing tool get_user: TypeError: Cannot destructure property 'userId' of 'args' as it is undefined.".
Proof. reflexivity. Qed.

Lemma getProp_other (k key : string) (v : JsVal) (o : JsObject) :
  k <> key -> getProp key ((k, v) :: o) = getProp key o.
Proof.
  intros H. cbn [getProp]. destruct (String.eqb_spec k key); [contradiction|reflexivity].
Qed.

Ltac forget_binding k H :=
  repeat match goal with
         | |- context [getProp ?key ((k, ?v) :: ?o)] =>
             rewrite (getProp_other k key v o)
               by (intros E; apply H; rewrite E; cbn; tauto)
         end.

(** X9.  An argument the schema of a tool does not declare is ignored:
    adding it to the argument map changes neither the reply nor the
    request nor the error of the call. *)
Theorem undeclared_arguments_are_ignored :
  forall (name key : string) (v : JsVal) (o : JsObject) (t : Transport) (w : World),
    In name toolNames ->
    ~ In key (declaredProperties name) ->
    callTool name (Some ((key, v) :: o)) t w = callTool name (Some o) t w.
Proof.
  intros name key v o t w Hn Hk. by_name Hn.
  all: unfold callTool; cbn [switch handlers String.eqb Ascii.eqb Bool.eqb];
    unfold_handlers; unfold bind, destructure, ret.
  all: forget_binding key Hk; reflexivity.
Qed.

Lemma undeclared_arguments_are_ignored_witness :
  callTool "get_user"
    (Some (("verbose", JBool true)
           :: [("userId", JStr "alice"); ("domain", JStr "example.com")]))
    (fun _ => Resolved JNull) emptyWorld
  = callTool "get_user"
      (Some [("userId", JStr "alice"); ("domain", JStr "example.com")])
      (fun _ => Resolved JNull) emptyWorld.
Proof.
  apply undeclared_arguments_are_ignored.
  - cbn; tauto.
  - cbn. intros [H|[H|[]]]; discriminate H.
Defined.

(** The five ways a call ends. *)
Lemma callTool_cases (name : string) (args : option JsObject) t w :
  (exists env w',
      In name toolNames
      /\ callTool name args t w = (Returned (reply env), w')
      /\ ((exists req, w' = after req (t req) w)
          \/ (w' = w /\ exists o, args = Some o /\ printableArgs o = false)))
  \/ (~ In name toolNames
      /\ callTool name args t w
         = (Threw (ThrowMcp (mkMcpError MethodNotFound ("Unknown tool: " ++ name))), w))
  \/ (exists o msg,
         In name toolNames /\ args = Some o /\ validated name o = false
         /\ callTool name args t w
            = (Threw (ThrowMcp (mkMcpError InvalidParams msg)), w))
  \/ (exists msg,
         In name toolNames /\ args = None
         /\ callTool name args t w
            = (Threw (ThrowMcp (mkMcpError InternalError msg)), w))
  \/ (exists o msg req d,
         name = "search_users" /\ args = Some o
         /\ ToString (getProp "query" o) = None
         /\ t req = Resolved d
         /\ callTool name args t w
            = (Threw (ThrowMcp (mkMcpError InternalError msg)), after req (t req) w)).
Proof.
  destruct (in_dec string_dec name toolNames) as [Hn|Hn];
    [|right; left; split; [exact Hn | apply callTool_unknown, Hn]].
  assert (Hvalid : forall o, validated name o = true ->
            (exists env w',
                In name toolNames
                /\ callTool name (Some o) t w = (Returned (reply env), w')
                /\ ((exists req, w' = after req (t req) w)
                    \/ (w' = w /\ printableArgs o = false)))
            \/ (exists msg req d,
                   name = "search_users"
                   /\ ToString (getProp "query" o) = None
                   /\ t req = Resolved d
                   /\ callTool name (Some o) t w
                      = (Threw (ThrowMcp (mkMcpError InternalError msg)),
                         after req (t req) w))).
  { intros o Hv. destruct (delegate_total name o Hn) as [c Hc].
    destruct (callTool_run name o c t w Hc Hv)
      as (r & w' & msg & _ & Hcases & [Hcall | (Hs & Hok & Hq & Hcall)]).
    - left. eexists. exists w'. split; [exact Hn|]. split; [exact Hcall|].
      destruct Hcases as [(_ & req & _ & ->) | (Hu & _ & ->)].
      + left. exists req. reflexivity.
      + right. split; [reflexivity|].
        destruct (printableArgs o) eqn:Hp; [|reflexivity].
        rewrite (delegate_printable name o c Hc Hp) in Hu. discriminate Hu.
    - right. destruct Hcases as [(_ & req & -> & ->) | (_ & -> & _)];
        [|discriminate Hok].
      destruct (t req) as [d|e] eqn:E; [|discriminate Hok].
      exists msg, req, d. rewrite E. auto. }
  destruct args as [o|].
  - destruct (validated name o) eqn:Hv.
    + destruct (Hvalid o Hv)
        as [(env & w' & H1 & H2 & [H3 | (H3 & H4)]) | (msg & req & d & H1 & H2 & H3 & H4)].
      * left. exists env, w'. auto.
      * left. exists env, w'. split; [exact H1|]. split; [exact H2|].
        right. split; [exact H3|]. exists o. auto.
      * right; right; right; right. exists o, msg, req, d. auto.
    + right; right; left.
      destruct (callTool_rejects_missing name o t w Hn Hv) as (msg & Hcall & _).
      exists o, msg. repeat split; assumption.
  - destruct (call_without_arguments_lemma name t w Hn) as [Hsame Hfail].
    assert (Hnone : name = "get_domains" \/ name = "test_connection" ->
              exists env w',
                In name toolNames
                /\ callTool name None t w = (Returned (reply env), w')
                /\ ((exists req, w' = after req (t req) w)
                    \/ (w' = w /\ exists o, None = Some o /\ printableArgs o = false))).
    { intros E. rewrite (Hsame E []).
      assert (Hv : validated name [] = true) by (destruct E as [-> | ->]; reflexivity).
      destruct (Hvalid [] Hv)
        as [(env & w' & H1 & H2 & [H3 | (_ & H4)]) | (msg & req & d & H1 & _)].
      - exists env, w'. auto.
      - discriminate H4.
      - destruct E as [E | E]; rewrite E in H1; discriminate H1. }
    destruct (string_dec name "get_domains") as [E1|E1];
      [|destruct (string_dec name "test_connection") as [E2|E2]].
    + left. apply Hnone. left. exact E1.
    + left. apply Hnone. right. exact E2.
    + right; right; right; left. destruct (Hfail E1 E2) as [detail Hcall].
      eexists. repeat split; [exact Hn | exact Hcall].
Qed.

(** X10.  A call issues one request at most and throws nothing but an
    [McpError].  When the values of its argument map all convert to
    strings, as every string and every number does, it ends in one of two
    ways: either it returns a reply, and then it has issued exactly one
    request, after the requests issued before; or it throws, and then it
    has issued no request and logged nothing. *)
Theorem one_request_per_reply :
  forall (name : string) (args : option JsObject) (t : Transport) (w : World),
  exists out w',
    callTool name args t w = (out, w')
    /\ (w' = w \/ exists req, w' = after req (t req) w)
    /\ ((exists env, out = Returned (reply env))
        \/ exists code text, out = Threw (ThrowMcp (mkMcpError code text)))
    /\ (forall o, args = Some o -> printableArgs o = true ->
        ((exists env, out = Returned (reply env))
         /\ exists req, issued w' = (issued w ++ [req])%list)
        \/ ((exists code text, out = Threw (ThrowMcp (mkMcpError code text)))
            /\ w' = w)).
Proof.
  intros name args t w.
  destruct (callTool_cases name args t w)
    as [(env & w' & _ & H & Hw)
       | [(_ & H)
         | [(o & msg & _ & _ & _ & H)
           | [(msg & _ & Hnone & H)
             | (o & msg & req & d & _ & Ho & Hq & _ & H)]]]];
    rewrite H; eexists; eexists; (split; [reflexivity|]).
  - split; [|split].
    + destruct Hw as [(req & ->) | (-> & _)]; [right; exists req|left]; reflexivity.
    + left. exists env. reflexivity.
    + intros o Ho Hp. left. split; [exists env; reflexivity|].
      destruct Hw as [(req & ->) | (_ & o' & Ho' & Hu)].
      * exists req. apply issued_after.
      * rewrite Ho in Ho'. injection Ho' as <-. rewrite Hp in Hu. discriminate Hu.
  - split; [left; reflexivity|]. split; [right; eexists; eexists; reflexivity|].
    intros o _ _. right. split; [eexists; eexists; reflexivity | reflexivity].
  - split; [left; reflexivity|]. split; [right; eexists; eexists; reflexivity|].
    intros o' _ _. right. split; [eexists; eexists; reflexivity | reflexivity].
  - split; [left; reflexivity|]. split; [right; eexists; eexists; reflexivity|].
    intros o Ho. rewrite Hnone in Ho. discriminate Ho.
  - split; [right; exists req; reflexivity|].
    split; [right; eexists; eexists; reflexivity|].
    intros o' Ho' Hp. rewrite Ho in Ho'. injection Ho' as <-.
    pose proof (printable_getProp "query" o Hp) as Hpq.
    unfold printable in Hpq. rewrite Hq in Hpq. discriminate Hpq.
Qed.

(** X11.  With an argument map a call ends in an error in three ways
    only: the unknown tool and the invalid parameters, both before any
    request, and the internal error of [search_users], after its request
    was answered with a 2xx response, when the query cannot be converted
    to a string for the message.  With a query that converts, as a string
    or a number does, no call with an argument map ends in an internal
    error. *)
Theorem internal_error_needs_an_unprintable_query :
  forall (name : string) (o : JsObject) (t : Transport) (w : World)
         (code : ErrorCode) (msg : string) (w' : World),
    callTool name (Some o) t w = (Threw (ThrowMcp (mkMcpError code msg)), w') ->
    (code = MethodNotFound /\ ~ In name toolNames /\ w' = w)
    \/ (code = InvalidParams /\ In name toolNames /\ w' = w)
    \/ (code = InternalError /\ name = "search_users"
        /\ printable (getProp "query" o) = false
        /\ exists req d, t req = Resolved d /\ w' = after req (t req) w).
Proof.
  intros name o t w code msg w' Hcall.
  destruct (callTool_cases name (Some o) t w)
    as [(env & w0 & _ & H & _)
       | [(Hn & H)
         | [(o' & m & Hn & _ & _ & H)
           | [(m & _ & Habs & _)
             | (o' & m & req & d & Hs & Ho & Hq & Hd & H)]]]];
    try (rewrite H in Hcall); try discriminate.
  - injection Hcall as <- _ <-. left. auto.
  - injection Hcall as <- _ <-. right. left. auto.
  - injection Hcall as <- _ <-. injection Ho as <-. right. right.
    split; [reflexivity|]. split; [exact Hs|].
    split; [unfold printable; rewrite Hq; reflexivity|].
    exists req, d. auto.
Qed.

Lemma internal_error_needs_an_unprintable_query_witness :
  (InternalError = MethodNotFound /\ ~ In "search_users" toolNames
   /\ mkWorld [mkRequest GET "/domains/~/users/~"
                 [("user", JArr [JObj [("toString", JNull)]]); ("limit", JNum 20)]] []
      = emptyWorld)
  \/ (InternalError = InvalidParams /\ In "search_users" toolNames
      /\ mkWorld [mkRequest GET "/domains/~/users/~"
                    [("user", JArr [JObj [("toString", JNull)]]); ("limit", JNum 20)]] []
         = emptyWorld)
  \/ (InternalError = InternalError /\ "search_users" = "search_users"
      /\ printable (getProp "query" [("query", JArr [JObj [("toString", JNull)]])]) = false
      /\ exists req d,
           (fun _ : Request => Resolved (JArr [])) req = Resolved d
           /\ mkWorld [mkRequest GET "/domains/~/users/~"
                         [("user", JArr [JObj [("toString", JNull)]]); ("limit", JNum 20)]] []
              = after req ((fun _ : Request => Resolved (JArr [])) req) emptyWorld).
Proof.
  apply (internal_error_needs_an_unprintable_query "search_users"
           [("query", JArr [JObj [("toString", JNull)]])]
           (fun _ => Resolved (JArr [])) emptyWorld InternalError
           "Error executing tool search_users: TypeError: Cannot convert object to primitive value").
  reflexivity.
Defined.

(** X12.  The catalogue and the dispatch table hold the same names: a
    call ends in the unknown-tool error exactly when its name is not the
    name of a descriptor [listTools] returns. *)
Theorem advertised_tools_are_dispatched :
  forall (name : string) (args : option JsObject) (t : Transport) (w : World),
    (exists msg w',
        callTool name args t w
        = (Threw (ThrowMcp (mkMcpError MethodNotFound msg)), w'))
    <-> ~ In name (map toolName catalog).
Proof.
  intros name args t w. fold toolNames. split.
  - intros (msg & w' & Hcall) Hn.
    destruct (callTool_cases name args t w)
      as [(env & w0 & _ & H & _)
         | [(Habs & _)
           | [(o & m & _ & _ & _ & H)
             | [(m & _ & _ & H)
               | (o & m & req & d & _ & _ & _ & _ & H)]]]];
      try (rewrite H in Hcall; discriminate Hcall).
    exact (Habs Hn).
  - intros Hn. eexists. eexists. apply callTool_unknown, Hn.
Qed.

Ltac destruct_answer_as t E :=
  match goal with |- context [t ?r] => destruct (t r) eqn:E; step_tool end.

(** A query that converts to a string did not fail to. *)
Ltac query_converts Hq :=
  match goal with
  | Es : ToString ?v = None |- _ =>
      exfalso; try specialize (Hq eq_refl);
      unfold printable in Hq; rewrite Es in Hq; discriminate Hq
  end.

(** X13.  The count in the message of a list tool is the number of
    elements of the [data] it returns.  When the platform answers the
    request of the call with an array, the message starts with "Found "
    (for [search_users], whose query has to convert to a string) or
    "Retrieved " (for the others) followed by the length of the array, 0
    for the empty array, and a space; when it answers with anything else,
    the count is 1 and [data] is the one-element list. *)
Theorem message_counts_the_data :
  forall (name : string) (o : JsObject) (c : GatewayCall) (t : Transport) (w : World)
         (req : Request),
    delegate name o = Some c ->
    kindOf c = ListOf ->
    validated name o = true ->
    (name = "search_users" -> printable (getProp "query" o) = true) ->
    issued (snd (callTool name (Some o) t w)) = (issued w ++ [req])%list ->
    (forall l, t req = Resolved (JArr l) ->
       exists rest,
         fst (callTool name (Some o) t w)
         = Returned
             (reply
                [("success", JBool true);
                 ("message",
                  JStr ((if String.eqb name "search_users" then "Found " else "Retrieved ")
                        ++ numberToString (Z.of_nat (List.length l)) ++ " " ++ rest));
                 ("data", JArr l);
                 ("error", JUndefined)]))
    /\ (forall d, t req = Resolved d -> isArray d = false ->
        exists rest,
          fst (callTool name (Some o) t w)
          = Returned
              (reply
                 [("success", JBool true);
                  ("message",
                   JStr ((if String.eqb name "search_users" then "Found " else "Retrieved ")
                         ++ "1" ++ " " ++ rest));
                  ("data", JArr [d]);
                  ("error", JUndefined)])).
Proof.
  intros name o c t w req Hc Hk Hv Hq Hi. by_tool Hc; try discriminate Hk.
  all: revert Hi; run_tool; use_validated Hv; step_tool.
  all: split_truthy; split_strings; try falsy_converts.
  all: try (intros Hi; same_request Hi; fail).
  all: try query_converts Hq.
  all: destruct_answer_as t E; settle_result; intros Hi; same_request Hi.
  all: split; [intros l Hl | intros d' Hd Harr]; rewrite E in *;
    first [ discriminate
          | match goal with H : Resolved _ = Resolved _ |- _ => injection H as -> end ].
  all: cbn [isArray countText String.eqb Ascii.eqb Bool.eqb];
    rewrite ?Harr; try (destruct d'; try discriminate Harr);
    eexists; reflexivity.
Qed.

Lemma message_counts_the_data_witness :
  (forall l,
      (fun _ : Request => Resolved (JArr [JStr "a1"; JStr "a2"]))
        (mkRequest GET "/domains/example.com/agents" [])
      = Resolved (JArr l) ->
      exists rest,
        fst (callTool "get_agents" (Some [("domain", JStr "example.com")])
               (fun _ => Resolved (JArr [JStr "a1"; JStr "a2"])) emptyWorld)
        = Returned
            (reply
               [("success", JBool true);
                ("message",
                 JStr ((if String.eqb "get_agents" "search_users"
                        then "Found " else "Retrieved ")
                       ++ numberToString (Z.of_nat (List.length l)) ++ " " ++ rest));
                ("data", JArr l);
                ("error", JUndefined)]))
  /\ (forall d,
         (fun _ : Request => Resolved (JArr [JStr "a1"; JStr "a2"]))
           (mkRequest GET "/domains/example.com/agents" [])
         = Resolved d ->
         isArray d = false ->
         exists rest,
           fst (callTool "get_agents" (Some [("domain", JStr "example.com")])
                  (fun _ => Resolved (JArr [JStr "a1"; JStr "a2"])) emptyWorld)
           = Returned
               (reply
                  [("success", JBool true);
                   ("message",
                    JStr ((if String.eqb "get_agents" "search_users"
                           then "Found " else "Retrieved ")
                          ++ "1" ++ " " ++ rest));
                   ("data", JArr [d]);
                   ("error", JUndefined)])).
Proof.
  apply (message_counts_the_data "get_agents" [("domain", JStr "example.com")]
           (GetAgents (JStr "example.com"))
           (fun _ => Resolved (JArr [JStr "a1"; JStr "a2"])) emptyWorld
           (mkRequest GET "/domains/example.com/agents" []));
    reflexivity.
Defined.

Example get_agents_counts_two :
  fst (callTool "get_agents" (Some [("domain", JStr "example.com")])
         (fun _ => Resolved (JArr [JStr "a1"; JStr "a2"])) emptyWorld)
  = Returned (reply [("success", JBool true);
                     ("message", JStr "Retrieved 2 agents for domain example.com");
                     ("data", JArr [JStr "a1"; JStr "a2"]);
                     ("error", JUndefined)]).
Proof. reflexivity. Qed.

(** A state that records no request more. *)
Ltac no_request H :=
  unfold interceptor in H; cbn [issued] in H;
  first [ exfalso; symmetry in H; exact (no_request_is_not_one _ _ H)
        | clear H ].

(** The sentence of a failure, from the message the call computed. *)
Ltac give_sentence :=
  match goal with
  | |- (Returned
          (JObj [(_, JArr [JObj [_; (_, JSON_stringify
                                         (JObj (_ :: (_, JStr (?p ++ _)) :: _)))]])]),
        _)
       = (Returned
            (JObj [(_, JArr [JObj [_; (_, JSON_stringify
                                           (JObj (_ :: (_, JStr (?ev ++ _)) :: _)))]])]),
          _) =>
      is_evar ev;
      let s := eval vm_compute in (substring 0 (String.length p - 2) p) in
      unify ev s
  end.

(** X14.  Every tool but [login_agent], [logout_agent] and
    [test_connection] has a sentence of its own for a failure, the same
    for every call.  When the request of a call is rejected, the message
    of the reply is that sentence, a colon and the cause, and that same
    cause is under [error]; the cause is the message of the rejection, or
    the fixed text of the gateway method when the rejection has none.
    When the call issues no request, because an argument of the endpoint
    does not convert to a string, the cause is the text of the TypeError
    (V8's). *)
Theorem failure_message_carries_the_cause :
  forall (name : string),
    In name toolNames ->
    name <> "login_agent" -> name <> "logout_agent" -> name <> "test_connection" ->
    exists sentence,
      forall (o : JsObject) (c : GatewayCall) (t : Transport) (w : World),
        delegate name o = Some c ->
        validated name o = true ->
        (forall req e,
            issued (snd (callTool name (Some o) t w)) = (issued w ++ [req])%list ->
            t req = Rejected e ->
            callTool name (Some o) t w
            = (Returned
                 (reply
                    [("success", JBool false);
                     ("message", JStr (sentence ++ ": " ++ causeOf c e));
                     ("data", emptyValue (kindOf c));
                     ("error", JStr (causeOf c e))]),
               after req (Rejected e) w))
        /\ (issued (snd (callTool name (Some o) t w)) = issued w ->
            callTool name (Some o) t w
            = (Returned
                 (reply
                    [("success", JBool false);
                     ("message",
                      JStr (sentence ++ ": " ++ "Cannot convert object to primitive value"));
                     ("data", emptyValue (kindOf c));
                     ("error", JStr "Cannot convert object to primitive value")]),
               w)).
Proof.
  intros name Hn H1 H2 H3. by_name Hn;
    try (exfalso; apply H1; reflexivity);
    try (exfalso; apply H2; reflexivity);
    try (exfalso; apply H3; reflexivity).
  all: eexists; intros o c t w Hc Hv; cbn in Hc; injection Hc as <-.
  all: split; [intros req e Hi He; revert Hi | intros Hi; revert Hi].
  all: run_tool; use_validated Hv; step_tool.
  all: split_truthy; split_strings; try falsy_converts.
  all: try destruct_answer_as t E; settle_result; intros Hi.
  all: first [ same_request Hi | no_request Hi ].
  all: try (rewrite E in He; first [discriminate He | injection He as ->]).
  all: unfold causeOf, after, reply; cbn [kindOf emptyValue fallbackText];
    try give_sentence; reflexivity.
Qed.

Lemma failure_message_carries_the_cause_witness :
  exists sentence,
    forall (o : JsObject) (c : GatewayCall) (t : Transport) (w : World),
      delegate "get_billing" o = Some c ->
      validated "get_billing" o = true ->
      (forall req e,
          issued (snd (callTool "get_billing" (Some o) t w)) = (issued w ++ [req])%list ->
          t req = Rejected e ->
          callTool "get_billing" (Some o) t w
          = (Returned
               (reply
                  [("success", JBool false);
                   ("message", JStr (sentence ++ ": " ++ causeOf c e));
                   ("data", emptyValue (kindOf c));
                   ("error", JStr (causeOf c e))]),
             after req (Rejected e) w))
      /\ (issued (snd (callTool "get_billing" (Some o) t w)) = issued w ->
          callTool "get_billing" (Some o) t w
          = (Returned
               (reply
                  [("success", JBool false);
                   ("message",
                    JStr (sentence ++ ": " ++ "Cannot convert object to primitive value"));
                   ("data", emptyValue (kindOf c));
                   ("error", JStr "Cannot convert object to primitive value")]),
             w)).
Proof.
  apply (failure_message_carries_the_cause "get_billing");
    [cbn; tauto | discriminate | discriminate | discriminate].
Defined.

(** A rejection without a message: the sentence and the fallback of the
    gateway read the same. *)
Example get_billing_without_message :
  fst (callTool "get_billing" (Some [("domain", JStr "example.com")])
         (fun _ => Rejected (mkAxiosError None None)) emptyWorld)
  = Returned
      (reply
         [("success", JBool false);
          ("message",
           JStr "Failed to get billing information: Failed to get billing information");
          ("data", JUndefined);
          ("error", JStr "Failed to get billing information")]).
Proof. reflexivity. Qed.

(** X15.  The message of [login_agent], [logout_agent] and
    [test_connection] is one of two fixed sentences, chosen by the
    outcome of the gateway method alone: on a rejection of the request
    the cause is under [error] and not in the message. *)
Theorem session_messages_are_fixed :
  forall (name : string) (o : JsObject) (c : GatewayCall) (t : Transport) (w : World),
    delegate name o = Some c ->
    validated name o = true ->
    name = "login_agent" \/ name = "logout_agent" \/ name = "test_connection" ->
    exists r w',
      invoke c t w = (Returned r, w')
      /\ callTool name (Some o) t w
         = (Returned
              (reply
                 (if String.eqb name "test_connection"
                  then [("success", JBool (success r));
                        ("message", JStr (sessionMessage name (success r)));
                        ("error", error r)]
                  else [("success", JBool (success r));
                        ("message", JStr (sessionMessage name (success r)));
                        ("data", data r);
                        ("error", error r)])),
            w')
      /\ (forall req e,
             issued w' = (issued w ++ [req])%list ->
             t req = Rejected e ->
             success r = false /\ error r = JStr (causeOf c e)).
Proof.
  intros name o c t w Hc Hv [H|[H|H]]; subst name; injection Hc as <-.
  all: cbn [invoke]; run_tool; use_validated Hv; step_tool.
  all: split_strings; try falsy_converts.
  all: try destruct_answer_as t E; settle_result.
  all: eexists; eexists; (split; [reflexivity|]); (split; [reflexivity|]).
  all: intros req rejection Hi He; same_request Hi.
  all: rewrite E in He; first [discriminate He | injection He as ->].
  all: unfold causeOf; split; reflexivity.
Qed.

Lemma session_messages_are_fixed_witness :
  exists r w',
    let t := fun _ : Request => Rejected (mkAxiosError (Some "Network Error") None) in
    let c := LoginAgent (JStr "example.com") (JStr "sales") (JStr "1001") in
    let o := [("domain", JStr "example.com"); ("queueId", JStr "sales");
              ("agentId", JStr "1001")] in
    invoke c t emptyWorld = (Returned r, w')
    /\ callTool "login_agent" (Some o) t emptyWorld
       = (Returned
            (reply
               (if String.eqb "login_agent" "test_connection"
                then [("success", JBool (success r));
                      ("message", JStr (sessionMessage "login_agent" (success r)));
                      ("error", error r)]
                else [("success", JBool (success r));
                      ("message", JStr (sessionMessage "login_agent" (success r)));
                      ("data", data r);
                      ("error", error r)])),
          w')
    /\ (forall req e,
           issued w' = (issued emptyWorld ++ [req])%list ->
           t req = Rejected e ->
           success r = false /\ error r = JStr (causeOf c e)).
Proof.
  apply (session_messages_are_fixed "login_agent"
           [("domain", JStr "example.com"); ("queueId", JStr "sales");
            ("agentId", JStr "1001")]
           (LoginAgent (JStr "example.com") (JStr "sales") (JStr "1001"))
           (fun _ => Rejected (mkAxiosError (Some "Network Error") None)) emptyWorld);
    [reflexivity | reflexivity | left; reflexivity].
Defined.

Example login_agent_rejected :
  fst (callTool "login_agent"
         (Some [("domain", JStr "example.com"); ("queueId", JStr "sales");
                ("agentId", JStr "1001")])
         (fun _ => Rejected (mkAxiosError (Some "Network Error") None)) emptyWorld)
  = Returned (reply [("success", JBool false);
                     ("message", JStr "Failed to login agent");
                     ("data", JUndefined);
                     ("error", JStr "Network Error")]).
Proof. reflexivity. Qed.

(** * Properties of the start-up *)

(** X16.  [getConfig] throws exactly when the API token is not set or is
    the empty string, and its error names the variable; otherwise it
    returns a configuration that holds the token. *)
Theorem getConfig_requires_the_token :
  forall (env : Config.Env),
    ((env "NETSAPIENS_API_TOKEN" = None
      \/ env "NETSAPIENS_API_TOKEN" = Some EmptyString)
     <-> Config.getConfig env
         = inl "NETSAPIENS_API_TOKEN environment variable is required")
    /\ (forall config,
           Config.getConfig env = inr config ->
           env "NETSAPIENS_API_TOKEN" = Some (Config.apiToken (Config.netsapiens config))
           /\ Config.apiToken (Config.netsapiens config) <> EmptyString).
Proof.
  intros env. unfold Config.getConfig.
  destruct (env "NETSAPIENS_API_TOKEN") as [tok|].
  - destruct (String.eqb_spec tok EmptyString) as [->|Hne].
    + split; [tauto|]. intros config H. discriminate H.
    + split.
      * split; [intros [H|H]; [discriminate H | injection H as H; contradiction]
               | intros H; discriminate H].
      * intros config H. injection H as <-. cbn. split; [reflexivity | exact Hne].
  - split; [tauto|]. intros config H. discriminate H.
Qed.

(** X17.  With a token in the environment the server's HTTP client is
    bound to the configured API url, or to the default url when that
    variable is not set or empty, followed by [/ns-api/v2]; it sends the
    token as a bearer authorization; and its timeout is 30 seconds,
    which no environment variable changes. *)
Theorem client_of_the_environment :
  forall (env : Config.Env) (token : string),
    env "NETSAPIENS_API_TOKEN" = Some token ->
    token <> EmptyString ->
    exists client,
      Config.startClient env = inr client
      /\ Config.baseURL client
         = match env "NETSAPIENS_API_URL" with
           | Some u => if String.eqb u EmptyString
                       then "https://api.ucaasnetwork.com/ns-api/v2"
                       else u ++ "/ns-api/v2"
           | None => "https://api.ucaasnetwork.com/ns-api/v2"
           end
      /\ Config.header "Authorization" client = Some ("Bearer " ++ token)
      /\ Config.header "Content-Type" client = Some "application/json"
      /\ Config.header "Accept" client = Some "application/json"
      /\ Config.clientTimeout client = 30000%Z.
Proof.
  intros env token Ht Hne.
  unfold Config.startClient, Config.getConfig. rewrite Ht.
  destruct (String.eqb_spec token EmptyString) as [E|_]; [contradiction|].
  eexists. split; [reflexivity|].
  cbn [Config.NetSapiensClient Config.baseURL Config.netsapiens Config.apiUrl
       Config.apiToken Config.timeout Config.clientTimeout].
  split.
  - unfold Config.envOr. destruct (env "NETSAPIENS_API_URL") as [u|]; [|reflexivity].
    destruct (String.eqb u EmptyString); reflexivity.
  - repeat split.
Qed.

Lemma client_of_the_environment_witness :
  exists client,
    Config.startClient
      (fun v => if String.eqb v "NETSAPIENS_API_TOKEN" then Some "s3cret" else None)
    = inr client
    /\ Config.baseURL client
       = match (fun v => if String.eqb v "NETSAPIENS_API_TOKEN" then Some "s3cret" else None)
                 "NETSAPIENS_API_URL" with
         | Some u => if String.eqb u EmptyString
                     then "https://api.ucaasnetwork.com/ns-api/v2"
                     else u ++ "/ns-api/v2"
         | None => "https://api.ucaasnetwork.com/ns-api/v2"
         end
    /\ Config.header "Authorization" client = Some ("Bearer " ++ "s3cret")
    /\ Config.header "Content-Type" client = Some "application/json"
    /\ Config.header "Accept" client = Some "application/json"
    /\ Config.clientTimeout client = 30000%Z.
Proof.
  apply (client_of_the_environment
           (fun v => if String.eqb v "NETSAPIENS_API_TOKEN" then Some "s3cret" else None)
           "s3cret").
  - reflexivity.
  - discriminate.
Defined.

(** X18.  The constructor never builds a client without a timeout: a
    configured timeout other than zero is kept, and a timeout that is
    missing or zero becomes 30000 milliseconds. *)
Theorem client_timeout_is_never_zero :
  forall (config : Config.NetSapiensConfig),
    Config.clientTimeout (Config.NetSapiensClient config) <> 0%Z
    /\ (forall n, Config.timeout config = Some n -> n <> 0%Z ->
        Config.clientTimeout (Config.NetSapiensClient config) = n)
    /\ (Config.timeout config = None \/ Config.timeout config = Some 0%Z ->
        Config.clientTimeout (Config.NetSapiensClient config) = 30000%Z).
Proof.
  intros config. cbn [Config.NetSapiensClient Config.clientTimeout].
  destruct (Config.timeout config) as [n|].
  - destruct (Z.eqb_spec n 0) as [->|Hn].
    + split; [discriminate|]. split; [intros m H Hm; injection H as <-; contradiction|].
      reflexivity.
    + split; [exact Hn|]. split; [intros m H _; injection H as <-; reflexivity|].
      intros [H|H]; [discriminate H | injection H as H; contradiction].
  - split; [discriminate|]. split; [intros m H; discriminate H | reflexivity].
Qed.

(** X19.  [run] writes its two start-up lines exactly when [DEBUG] is
    the string [true] (not [TRUE], not [1]); the second line is the API
    url in use. *)
Theorem debug_lines_need_the_exact_flag :
  forall (env : Config.Env) (config : Config.MCPServerConfig),
    Config.getConfig env = inr config ->
    (env "DEBUG" = Some "true" ->
     Config.run config
     = ["OITVOIP MCP Server started successfully";
        "NetSapiens API URL: " ++ Config.apiUrl (Config.netsapiens config)])
    /\ (env "DEBUG" <> Some "true" -> Config.run config = []).
Proof.
  intros env config. unfold Config.getConfig.
  destruct (env "NETSAPIENS_API_TOKEN") as [tok|]; [|discriminate].
  destruct (String.eqb tok EmptyString); [discriminate|].
  intros H. injection H as <-. unfold Config.run. cbn [Config.debug Config.netsapiens Config.apiUrl].
  destruct (env "DEBUG") as [v|].
  - destruct (String.eqb_spec v "true") as [->|Hv].
    + split; [reflexivity | intros H; contradiction].
    + split; [intros H; injection H as H; contradiction | reflexivity].
  - split; [discriminate | reflexivity].
Qed.

Lemma debug_lines_need_the_exact_flag_witness :
  exists config,
    Config.getConfig
      (fun v => if String.eqb v "NETSAPIENS_API_TOKEN" then Some "s3cret"
                else if String.eqb v "DEBUG" then Some "TRUE" else None)
    = inr config
    /\ Config.run config = [].
Proof.
  eexists. split; [reflexivity|].
  refine (proj2 (debug_lines_need_the_exact_flag
                   (fun v => if String.eqb v "NETSAPIENS_API_TOKEN" then Some "s3cret"
                             else if String.eqb v "DEBUG" then Some "TRUE" else None)
                   _ eq_refl) _).
  discriminate.
Defined.

(** * The probe and the listing *)

(** X20.  [test_connection] probes the endpoint [get_domains] lists: on
    a platform whose answer to a GET of [/domains] does not depend on
    the query parameters, the probe succeeds exactly when the listing
    does. *)
Theorem probe_agrees_with_listing :
  forall (t : Transport) (w1 w2 : World),
    (forall p q, sameAnswer (t (mkRequest GET "/domains" p)) (t (mkRequest GET "/domains" q))) ->
    exists probe listing w1' w2',
      testConnection t w1 = (Returned probe, w1')
      /\ getDomains t w2 = (Returned listing, w2')
      /\ success probe = success listing.
Proof.
  intros t w1 w2 H.
  unfold testConnection, getDomains, client_get. rewrite !try_request.
  specialize (H [("limit", JNum 1)] []).
  destruct (t (mkRequest GET "/domains" [("limit", JNum 1)])),
    (t (mkRequest GET "/domains" [])); cbn [sameAnswer] in H; try contradiction;
    eexists; eexists; eexists; eexists;
    (split; [reflexivity|]); (split; [reflexivity|]).
  - reflexivity.
  - reflexivity.
Qed.

Lemma probe_agrees_with_listing_witness :
  exists probe listing w1' w2',
    testConnection (fun _ => Rejected (mkAxiosError (Some "Network Error") None)) emptyWorld
    = (Returned probe, w1')
    /\ getDomains (fun _ => Rejected (mkAxiosError (Some "Network Error") None)) emptyWorld
       = (Returned listing, w2')
    /\ success probe = success listing.
Proof.
  apply (probe_agrees_with_listing
           (fun _ => Rejected (mkAxiosError (Some "Network Error") None))
           emptyWorld emptyWorld).
  intros p q. reflexivity.
Defined.

(** X21.  [get_phone_numbers] has no default page size: once its domain
    is there and converts to a string, it issues one GET of the phone
    numbers of the domain and forwards [limit] as it was passed,
    [undefined] when it was not. *)
Theorem phone_numbers_limit_is_forwarded :
  forall (o : JsObject) (d : string) (t : Transport) (w : World),
    truthy (getProp "domain" o) = true ->
    ToString (getProp "domain" o) = Some d ->
    exists env w',
      callTool "get_phone_numbers" (Some o) t w = (Returned (reply env), w')
      /\ issued w'
         = (issued w
            ++ [mkRequest GET ("/domains/" ++ d ++ "/phonenumbers")
                  [("limit", getProp "limit" o)]])%list.
Proof.
  intros o d t w Ht Hd. run_tool. rewrite Ht, Hd. step_tool.
  destruct_answer t; settle_result; rewrite ?Hd; step_tool;
    eexists; eexists; (split; [reflexivity|]); reflexivity.
Qed.

Lemma phone_numbers_limit_is_forwarded_witness :
  exists env w',
    callTool "get_phone_numbers" (Some [("domain", JStr "example.com")])
      (fun _ => Resolved (JArr [])) emptyWorld
    = (Returned (reply env), w')
    /\ issued w'
       = (issued emptyWorld
          ++ [mkRequest GET ("/domains/" ++ "example.com" ++ "/phonenumbers")
                [("limit", getProp "limit" [("domain", JStr "example.com")])]])%list.
Proof.
  apply (phone_numbers_limit_is_forwarded [("domain", JStr "example.com")]
           "example.com" (fun _ => Resolved (JArr [])) emptyWorld); reflexivity.
Defined.
